(** * CIFAR-10 CNN notebook (03_neural_networks_tensorflow/02_keras_cnn.ipynb)

    A shallow embedding of the notebook's own logic: the manual training
    loop ([train_loop], [train_iteration], [forward_pass]), the two
    training entry points ([train_network], [train_network_concise]), the
    classifier's [call] method and the evaluation cells (test accuracy,
    confusion matrix, per-class accuracy).

    Tensor arithmetic (convolutions, dense layers, the loss, automatic
    differentiation, the Adam update rule) is the numerical framework's and
    stays abstract: it enters through the class [Framework].  What the
    notebook itself decides is written out: which dataset object is batched,
    how batches are cut, which calls carry a training flag, what each function
    returns and which state it writes. *)

From Stdlib Require Import String.
From Stdlib Require Import ZArith List Lia QArith Bool Arith.
From Equations Require Import Equations.
Import ListNotations.

Set Implicit Arguments.
Close Scope Q_scope.

(** ** Python exceptions that the modelled calls can raise *)

Inductive PyError : Type :=
| ZeroDivisionError     (* 50000/batch_size with batch_size = 0 *)
| InvalidArgumentError  (* tf.data: batch size must be greater than zero *)
| ValueError            (* tensors of unequal length, empty input, argmax of nothing *)
| NameError             (* a global read before the cell that binds it ran *)
| RuntimeError          (* evaluate on a model that was never compiled *)
| IndexError
| TypeError             (* unpacking None *)
| Aborted.              (* std::bad_alloc or an abort: memory could not be reserved *)

Definition Result (A : Type) : Type := (PyError + A)%type.

(** ** tf.data datasets

    A [tf.data.Dataset] is an immutable description of a sequence of
    elements: every transformation ([shuffle], [batch]) returns a new dataset
    and leaves its receiver as it was.  A dataset is therefore a plain list
    here, and the transformations are functions. *)

(** The machine the notebook runs on: how many element slots a batching
    iterator can reserve at once. *)
Class Host : Type := {
  reserve_limit : Z
}.

Module Dataset.

Section Elements.
Context {A : Type} {H : Host}.

(** [chunks b drop ds]: the element sequence behind
    [ds.batch(batch_size=b, drop_remainder=drop)].  The batching iterator
    pulls up to [b] elements from its input; a full group is emitted, a
    shorter last group is emitted only when [drop] is false. *)
Equations? chunks (b : nat) (drop : bool) (ds : list A) : list (list A)
  by wf (length ds) lt :=
  chunks 0 _ _ := [];
  chunks (S b) _ [] := [];
  chunks (S b) drop (x :: ds) with le_lt_dec (S b) (length (x :: ds)) => {
    | left _ := firstn (S b) (x :: ds) :: chunks (S b) drop (skipn (S b) (x :: ds));
    | right _ := if drop then [] else [x :: ds] }.
Proof.
  rewrite length_skipn. simpl. lia.
Qed.

(** The slots the host can reserve.  Every host is taken to manage the
    65536 slots that the iterator reserves at most when it keeps the
    remainder. *)
Definition slots : Z := Z.max 65536 reserve_limit.

(** The largest batch size that batching with [drop_remainder=True] takes:
    an int64 whose slots the host can reserve. *)
Definition batch_limit : Z := Z.min slots (2 ^ 63 - 1).

(** [Dataset.batch].  The batch size is converted to an int64; a negative one
    is refused (as a dimension of the batch shape when [drop_remainder] is
    set), zero is refused by the batching itself, and the iterator reserves
    [batch_size] slots up front when [drop_remainder] is set (at most 65536
    otherwise), which fails when the host cannot provide them. *)
Definition batch (batch_size : Z) (drop_remainder : bool) (ds : list A)
  : Result (list (list A)) :=
  if ((batch_size <? - 2 ^ 63) || (2 ^ 63 <=? batch_size))%Z then inl ValueError
  else if (batch_size <? 0)%Z
       then inl (if drop_remainder then ValueError else InvalidArgumentError)
  else if (batch_size =? 0)%Z then inl InvalidArgumentError
  else if (slots <? (if drop_remainder then batch_size else Z.min batch_size 65536))%Z
       then inl Aborted
  else inr (chunks (Z.to_nat batch_size) drop_remainder ds).

End Elements.

(** [Dataset.from_tensor_slices((xs, ys))]: slices both tensors along their
    first axis and pairs the slices; the two first dimensions must agree. *)
Definition from_tensor_slices {A B} (xs : list A) (ys : list B)
  : Result (list (A * B)) :=
  if length xs =? length ys then inr (combine xs ys) else inl ValueError.

(** A batch of a dataset of pairs is a pair of stacked components. *)
Definition stack_pair {A B} (c : list (A * B)) : list A * list B :=
  (map fst c, map snd c).

End Dataset.

(** ** The numerical framework

    Everything TensorFlow/Keras computes with numbers.  None of it is the
    notebook's code, and no claim below looks inside it. *)

Definition Label : Type := Z.   (* y_train.astype(numpy.int32) *)

Class Framework : Type := {
  host :: Host;    (* the machine the framework runs on *)
  Image  : Type;   (* one 32x32x3 float32 image *)
  Tensor : Type;   (* a batched activation tensor *)
  Scalar : Type;   (* a float32 scalar *)
  Params : Type;   (* the model's trainable variables *)
  Grads  : Type;   (* one gradient per trainable variable *)
  Slots  : Type;   (* Adam's moment accumulators *)
  Rng    : Type;   (* the framework's random generator state *)
  conv_1  : Params -> Tensor -> Tensor;   (* Conv2D(32, [3,3], relu) *)
  conv_2  : Params -> Tensor -> Tensor;   (* Conv2D(64, [3,3], relu) *)
  pool_3  : Tensor -> Tensor;             (* MaxPooling2D((2,2)) *)
  flatten : Tensor -> Tensor;             (* Flatten() *)
  dense_5 : Params -> Tensor -> Tensor;   (* Dense(128, relu) *)
  dense_7 : Params -> Tensor -> Tensor;   (* Dense(10, softmax) *)
  (* tf.nn.dropout: zeroes each feature with probability [rate] *)
  random_dropout : Q -> Rng -> Tensor -> Tensor * Rng;
  init_weights : Rng -> Params * Rng;     (* the layers' initializers *)
  stack_images : list Image -> Tensor;    (* a batch of dataset elements *)
  reshape_nhwc : Tensor -> Tensor;        (* tf.reshape(_, [-1, 32, 32, 3]) *)
  rows : Tensor -> list (list Scalar);    (* a (N, 10) tensor as numpy rows *)
  gtb : Scalar -> Scalar -> bool;         (* a > b on floats *)
  (* SparseCategoricalCrossentropy(from_logits=False) *)
  scce : list Label -> Tensor -> Scalar;
  (* tape.gradient of a recorded computation, at the current variables *)
  tape_gradient : (Params -> Scalar) -> Params -> Grads;
  (* Adam's update rule: learning rate, step number, slots, gradients *)
  adam_step : Q -> nat -> Slots -> Grads -> Params -> Slots * Params;
  adam_slots0 : Slots;
  (* sample-weighted mean of per-batch losses; a count ratio as a float *)
  mean_loss : list (Scalar * nat) -> Scalar;
  ratio : nat -> nat -> Scalar;
  (* Dataset.shuffle(buffer_size): a new dataset; iterating it draws a
     random order from the generator *)
  shuffle : forall E : Type, Z -> list E -> Rng -> list E * Rng;
  (* time.time() at its k-th call *)
  time_at : nat -> Q
}.

(** ** A small state-and-exception monad

    A computation either raises or returns a value and a new state.  An
    uncaught exception ends the cell, so the state it leaves behind is not
    kept. *)

Definition M (S A : Type) : Type := S -> Result (A * S).

Definition ret {S A} (a : A) : M S A := fun s => inr (a, s).

Definition bind {S A B} (m : M S A) (k : A -> M S B) : M S B :=
  fun s => match m s with
           | inl e => inl e
           | inr (a, s') => k a s'
           end.

Definition raise {S A} (e : PyError) : M S A := fun _ => inl e.
Definition get {S} : M S S := fun s => inr (s, s).
Definition modify {S} (f : S -> S) : M S unit := fun s => inr (tt, f s).

Definition lift {S A} (r : Result A) : M S A :=
  fun s => match r with inl e => inl e | inr a => inr (a, s) end.

Declare Scope py_scope.
Delimit Scope py_scope with py.
Notation "x <- m ;; k" := (bind m (fun x => k))
  (at level 61, m at next level, right associativity) : py_scope.
Notation "m ;; k" := (bind m (fun _ => k))
  (at level 61, right associativity) : py_scope.
Open Scope py_scope.

(** [for x in xs: body x] *)
Fixpoint for_each {S A} (xs : list A) (body : A -> M S unit) : M S unit :=
  match xs with
  | [] => ret tt
  | x :: xs' => body x ;; for_each xs' body
  end.

(** [ensures m s Q]: run from [s], [m] raises nothing and its result and
    final state satisfy [Q]. *)
Definition ensures {S A} (m : M S A) (s : S) (Q : A -> S -> Prop) : Prop :=
  match m s with
  | inl _ => False
  | inr (a, s') => Q a s'
  end.

(** [holds m s Q]: if [m], run from [s], raises nothing, then its result and
    final state satisfy [Q]. *)
Definition holds {S A} (m : M S A) (s : S) (Q : A -> S -> Prop) : Prop :=
  match m s with
  | inl _ => True
  | inr (a, s') => Q a s'
  end.

(** [enumerate] and [range] *)
Definition enumerate {A} (xs : list A) : list (Z * A) :=
  combine (map Z.of_nat (seq 0 (length xs))) xs.

Definition range (n : Z) : list Z := map Z.of_nat (seq 0 (Z.to_nat n)).

(** [sequence] of results: the first error wins. *)
Fixpoint map_result {A B} (f : A -> Result B) (xs : list A) : Result (list B) :=
  match xs with
  | [] => inr []
  | x :: xs' =>
      match f x with
      | inl e => inl e
      | inr y => match map_result f xs' with
                 | inl e => inl e
                 | inr ys => inr (y :: ys)
                 end
      end
  end.

(** ** Reporting: confusion matrix and per-class accuracy

    [sklearn.metrics.confusion_matrix] and the numpy expressions of the
    confusion-matrix cell.  Counts are naturals: an entry never exceeds the
    number of samples, which is the length of an array in memory. *)

Module Metrics.

Definition count_pair (i j : Z) (pairs : list (Z * Z)) : nat :=
  length (filter (fun p => (fst p =? i)%Z && (snd p =? j)%Z) pairs).

Definition mem (y : Z) (labels : list Z) : bool := existsb (Z.eqb y) labels.

(** [confusion_matrix(y_true, y_pred, labels=labels)] for distinct [labels]:
    entry (i, j) counts the samples of true class [labels[i]] predicted as
    [labels[j]]; samples with a class outside [labels] are not counted. *)
Definition confusion_matrix (y_true y_pred labels : list Z) : Result (list (list nat)) :=
  if negb (length y_true =? length y_pred) then inl ValueError
  else match labels with
       | [] => inl ValueError
       | _ :: _ =>
           match y_true with
           | [] => inr (map (fun _ => map (fun _ => 0) labels) labels)
           | _ :: _ =>
               if negb (existsb (fun y => mem y labels) y_true) then inl ValueError
               else inr (map (fun i =>
                               map (fun j => count_pair i j (combine y_true y_pred)) labels)
                             labels)
           end
       end.

(** A float64 as numpy's true division of two integer arrays produces it.
    [Finite q] stands for the float nearest to the rational [q]; rounding is
    monotone and fixes 0 and 1, so bounds by 0 and 1 proved of [q] hold of the
    float. *)
Inductive NpFloat : Type :=
| NaN
| Inf
| Finite (q : Q).

(** [a / b] on integer arrays, one element: dividing by zero raises nothing,
    it gives [nan] for 0/0 and [inf] otherwise (with a RuntimeWarning). *)
Definition true_divide (a b : nat) : NpFloat :=
  match b with
  | 0 => match a with 0 => NaN | S _ => Inf end
  | S _ => Finite (Z.of_nat a # Pos.of_nat b)%Q
  end.

(** [cm.diagonal()] and [cm.sum(axis=1)] of a square matrix *)
Definition diagonal (cm : list (list nat)) : list nat :=
  map (fun '(i, row) => nth i row 0) (combine (seq 0 (length cm)) cm).

Definition sum_axis1 (cm : list (list nat)) : list nat := map (@list_sum) cm.

(** [cm.diagonal()/cm.sum(axis=1)] *)
Definition per_class_accuracy (cm : list (list nat)) : list NpFloat :=
  map (fun '(d, s) => true_divide d s) (combine (diagonal cm) (sum_axis1 cm)).

Definition labels10 : list Z := [0; 1; 2; 3; 4; 5; 6; 7; 8; 9]%Z.  (* list(range(10)) *)

End Metrics.

(** A class identifier of CIFAR-10. *)
Definition in_range (y : Z) : Prop := (0 <= y < 10)%Z.

Section Notebook.
Context {F : Framework}.

(** ** Optimizer and model objects *)

Record Optimizer : Type := {
  learning_rate : Q;
  iterations : nat;   (* the int64 step counter: one more per apply_gradients *)
  slots : Slots
}.

(** [tf.keras.optimizers.Adam(lr)]; its default learning rate is 0.001. *)
Definition Adam (lr : Q) : Optimizer :=
  {| learning_rate := lr; iterations := 0; slots := adam_slots0 |}.

Definition adam_default_lr : Q := (1 # 1000)%Q.

(** [tf.keras.optimizers.get]: an optimizer named by a string is built with
    its default arguments. *)
Definition optimizers_get (name : string) : Result Optimizer :=
  if String.eqb name "adam" then inr (Adam adam_default_lr) else inl ValueError.

(** [opt.apply_gradients(zip(grads, trainable_vars))] *)
Definition apply_gradients (o : Optimizer) (grads : Grads) (w : Params)
  : Optimizer * Params :=
  let '(s', w') := adam_step (learning_rate o) (iterations o) (slots o) grads w in
  ({| learning_rate := learning_rate o;
      iterations := S (iterations o);
      slots := s' |}, w').

Record Compiled : Type := {
  loss_name : string;
  optimizer : Optimizer;
  metrics_names : list string
}.

Record Model : Type := {
  weights : Params;
  compiled : option Compiled;
  test_counter : nat;      (* evaluate steps run so far *)
  predict_counter : nat    (* predict steps run so far *)
}.

Definition set_weights (m : Model) (w : Params) : Model :=
  {| weights := w; compiled := compiled m;
     test_counter := test_counter m; predict_counter := predict_counter m |}.

(** A [Model] is a model whose variables exist.  A model object as
    [CIFAR10Classifier()] returns it has none yet: Keras creates them when the
    model is first called.  [None] stands for such a fresh object. *)
Definition CIFAR10Classifier : option Model := None.

(** The first call of a model builds it: the layers' initializers draw the
    variables from the generator.  A model that is built already is left as
    it is, and so is the generator.  (The constructor's [activation] argument
    is never read.) *)
Definition build (m : option Model) (g : Rng) : Model * Rng :=
  match m with
  | Some m => (m, g)
  | None =>
      let '(w, g') := init_weights g in
      ({| weights := w; compiled := None; test_counter := 0; predict_counter := 0 |}, g')
  end.

(** [model.compile(loss=..., optimizer=..., metrics=['accuracy'])] with the
    optimizer given by name. *)
Definition compile (m : Model) (loss optimizer_name : string) : Result Model :=
  match optimizers_get optimizer_name with
  | inl e => inl e
  | inr o =>
      inr {| weights := weights m;
             compiled := Some {| loss_name := loss; optimizer := o;
                                 metrics_names := ["loss"; "accuracy"]%string |};
             test_counter := test_counter m;
             predict_counter := predict_counter m |}
  end.

(** *** The training flag

    A Keras layer called without a [training] argument takes the flag of the
    enclosing call; a top-level call without it runs in inference mode. *)
Definition resolve_training (explicit ctx : option bool) : bool :=
  match explicit with
  | Some t => t
  | None => match ctx with Some t => t | None => false end
  end.

(** [Dropout(rate)] applied as [layer(x)], inside a call whose flag is [ctx]. *)
Definition Dropout (rate : Q) (ctx : option bool) (x : Tensor) (g : Rng)
  : Tensor * Rng :=
  if resolve_training None ctx then random_dropout rate g x else (x, g).

(** [CIFAR10Classifier.call(self, inputs)] *)
Definition call (ctx : option bool) (w : Params) (inputs : Tensor) (g : Rng)
  : Tensor * Rng :=
  let x := conv_1 w inputs in
  let x := conv_2 w x in
  let x := pool_3 x in
  let '(x, g) := Dropout (1 # 4)%Q ctx x g in
  let x := flatten x in
  let x := dense_5 w x in
  let '(x, g) := Dropout (1 # 2)%Q ctx x g in
  let x := dense_7 w x in
  (x, g).

(** [model(inputs)] is [model_call None]; Keras's own loops call
    [model(x, training=True)] in [fit] and [model(x, training=False)] in
    [evaluate] and [predict]. *)
Definition model_call (training : option bool) (w : Params) (inputs : Tensor) (g : Rng)
  : Tensor * Rng :=
  call training w inputs g.

(** ** Output and process state *)

Record History : Type := {
  h_epoch : list Z;            (* history.epoch *)
  h_loss : list Scalar;        (* history.history['loss'] *)
  h_accuracy : list Scalar     (* history.history['accuracy'] *)
}.

Inductive Line : Type :=
| BeginningEpoch (i_epoch : Z)                   (* "beginning epoch %d" *)
| TookSeconds (seconds : Q) (i_epoch : Z)        (* "took %1.1f seconds for epoch #%d" *)
| FitEpoch (i n : Z) (loss acc : Scalar)         (* Keras: "Epoch i/n" and its metrics *)
| EvaluateLine (steps : nat) (loss acc : Scalar) (* Keras: evaluate, verbose=2 *)
| Percent (name : string) (score : Scalar)       (* "%s: %.2f%%" % (name, score*100) *)
| Text (s : string)
| Matrix (m : list (list nat))
| ClassAccuracy (i : Z) (j : Metrics.NpFloat).   (* "%d: %.4f" % (i, j) *)

Record Figure : Type := {
  title : string;
  xs : list Z;
  ys : list Scalar
}.

Record Process : Type := {
  rng : Rng;
  ticks : nat;            (* calls of time.time() so far *)
  stdout : list Line;
  figures : list Figure
}.

Definition emit (l : Line) (p : Process) : Process :=
  {| rng := rng p; ticks := ticks p; stdout := stdout p ++ [l]; figures := figures p |}.

Definition tick (p : Process) : Process :=
  {| rng := rng p; ticks := S (ticks p); stdout := stdout p; figures := figures p |}.

Definition set_rng (g : Rng) (p : Process) : Process :=
  {| rng := g; ticks := ticks p; stdout := stdout p; figures := figures p |}.

Definition draw (f : Figure) (p : Process) : Process :=
  {| rng := rng p; ticks := ticks p; stdout := stdout p; figures := figures p ++ [f] |}.

(** ** The manual training path *)

Definition compute_loss (y_true : list Label) (y_pred : Tensor) : Scalar :=
  scce y_true y_pred.

(** [forward_pass(model, batch_data, y_true)] *)
Definition forward_pass (w : Params) (batch_data : Tensor) (y_true : list Label)
  (g : Rng) : Scalar * Rng :=
  let '(y_pred, g') := model_call None w batch_data g in
  let loss := compute_loss y_true y_pred in
  (loss, g').

(** The objects a run of [train_loop] works on: its [model] and [opt]
    arguments (mutated in place), the global [dataset] it reads (bound by the
    last cell), and the process. *)
Record Run : Type := {
  model : option Model;   (* [None]: constructed but not called yet *)
  opt : Optimizer;
  dataset : option (list (Image * Label));
  proc : Process
}.

Definition on_proc (f : Process -> Process) : M Run unit :=
  modify (fun r => {| model := model r; opt := opt r; dataset := dataset r;
                      proc := f (proc r) |}).

Definition print (l : Line) : M Run unit := on_proc (emit l).

Definition time : M Run Q :=
  r <- get ;;
  on_proc tick ;;
  ret (time_at (ticks (proc r))).

(** [train_iteration(data, y_true, model, opt)].  The call of the model in
    the forward pass builds it if this is its first call. *)
Definition train_iteration (data : Tensor) (y_true : list Label) : M Run Scalar :=
  fun r =>
    let '(m, g) := build (model r) (rng (proc r)) in
    let w := weights m in
    let '(loss, g') := forward_pass w data y_true g in
    let trainable_vars := w in
    let grads := tape_gradient (fun v => fst (forward_pass v data y_true g)) trainable_vars in
    let '(o', w') := apply_gradients (opt r) grads trainable_vars in
    inr (loss, {| model := Some (set_weights m w'); opt := o';
                  dataset := dataset r; proc := set_rng g' (proc r) |}).

(** [int(50000/batch_size)] *)
Definition epoch_steps_of (batch_size : Z) : Result Z :=
  if (batch_size =? 0)%Z then inl ZeroDivisionError
  else inr (Z.quot 50000 batch_size).

(** The [batches] of one epoch.  [dataset.shuffle(50000)] is evaluated as a
    statement: the dataset it returns is bound to nothing and never iterated,
    and [batches] is built from [dataset] itself. *)
Definition epoch_batches (batch_size : Z) (ds : list (Image * Label))
  : Result (list (list Image * list Label)) :=
  let _shuffled := shuffle 50000 ds in
  match Dataset.batch batch_size true ds with
  | inl e => inl e
  | inr bs => inr (map Dataset.stack_pair bs)
  end.

Definition read_dataset : M Run (list (Image * Label)) :=
  r <- get ;;
  match dataset r with
  | None => raise NameError
  | Some ds => ret ds
  end.

(** One pass of the body of [for i_epoch in range(n_training_epochs)]. *)
Definition epoch (batch_size : Z) (i_epoch : Z) : M Run unit :=
  print (BeginningEpoch i_epoch) ;;
  start <- time ;;
  epoch_steps <- lift (epoch_steps_of batch_size) ;;
  ds <- read_dataset ;;
  batches <- lift (epoch_batches batch_size ds) ;;
  for_each (enumerate batches) (fun '(i_batch, (batch_data, y_true)) =>
    let batch_data := reshape_nhwc (stack_images batch_data) in
    loss <- train_iteration batch_data y_true ;;
    ret tt) ;;
  end_ <- time ;;
  print (TookSeconds (end_ - start)%Q i_epoch).

(** What a run of the loop leaves alone, and what it counts: relative to a
    start state [r0], [k] optimizer steps and [l] printed lines later. *)
Definition advanced (r0 : Run) (k l : nat) (r : Run) : Prop :=
  iterations (opt r) = iterations (opt r0) + k /\
  learning_rate (opt r) = learning_rate (opt r0) /\
  dataset r = dataset r0 /\
  length (stdout (proc r)) = length (stdout (proc r0)) + l /\
  (k = 0 -> model r = model r0 /\ opt r = opt r0).

(** What the notebook's functions evaluate to. *)
Inductive Returned : Type :=
| RetNone
| RetHistoryModel (history : History) (m : Model).

(** [train_loop(batch_size, n_training_epochs, model, opt)]: its body has no
    [return] statement, so the call evaluates to [None]. *)
Definition train_loop (batch_size n_training_epochs : Z) : M Run Returned :=
  for_each (range n_training_epochs) (epoch batch_size) ;;
  ret RetNone.

(** ** numpy.argmax and the Keras loops the notebook calls *)

(** [numpy.argmax] of one row: the index of the first largest entry. *)
Fixpoint argmax_from (best : Scalar) (best_i i : nat) (row : list Scalar) : nat :=
  match row with
  | [] => best_i
  | x :: row' =>
      if gtb x best then argmax_from x i (S i) row'
      else argmax_from best best_i (S i) row'
  end.

Definition argmax_row (row : list Scalar) : Result Z :=
  match row with
  | [] => inl ValueError
  | x :: row' => inr (Z.of_nat (argmax_from x 0 1 row'))
  end.

(** [numpy.argmax(predictions, axis=1)] *)
Definition argmax_axis1 (predictions : list (list Scalar)) : Result (list Z) :=
  map_result argmax_row predictions.

Definition count_matches (y_true : list Label) (classes : list Z) : nat :=
  length (filter (fun '(y, c) => (y =? c)%Z) (combine y_true classes)).

(** [model.predict(x)]: inference-mode calls on batches of 32, the last one
    possibly shorter, outputs concatenated. *)
Fixpoint predict_steps (w : Params) (batches : list (list Image)) (g : Rng)
  : list (list Scalar) * Rng :=
  match batches with
  | [] => ([], g)
  | b :: rest =>
      let '(y_pred, g1) := model_call (Some false) w (stack_images b) g in
      let '(out, g2) := predict_steps w rest g1 in
      (rows y_pred ++ out, g2)
  end.

Definition predict (m : Model) (x : list Image) (g : Rng)
  : Result (list (list Scalar) * Model * Rng) :=
  match x with
  | [] => inl ValueError
  | _ :: _ =>
      let batches := Dataset.chunks 32 false x in
      let '(out, g') := predict_steps (weights m) batches g in
      inr (out,
           {| weights := weights m; compiled := compiled m;
              test_counter := test_counter m;
              predict_counter := predict_counter m + length batches |},
           g')
  end.

(** [model.evaluate(x, y)]: inference-mode calls on batches of 32; the loss
    is averaged over the samples, the accuracy is the share of samples whose
    most probable class is the true one. *)
Fixpoint test_steps (w : Params) (batches : list (list Image * list Label)) (g : Rng)
  : Result (list (Scalar * nat) * nat * Rng) :=
  match batches with
  | [] => inr ([], 0, g)
  | (bx, by_) :: rest =>
      let '(y_pred, g1) := model_call (Some false) w (stack_images bx) g in
      match argmax_axis1 (rows y_pred) with
      | inl e => inl e
      | inr classes =>
          match test_steps w rest g1 with
          | inl e => inl e
          | inr (losses, matches, g2) =>
              inr ((scce by_ y_pred, length bx) :: losses,
                   count_matches by_ classes + matches, g2)
          end
      end
  end.

Definition evaluate (m : Model) (x : list Image) (y : list Label) (g : Rng)
  : Result (list Scalar * nat * Model * Rng) :=
  match compiled m with
  | None => inl RuntimeError
  | Some _ =>
      if negb (length x =? length y) then inl ValueError
      else match x with
           | [] => inl ValueError
           | _ :: _ =>
               let batches := map Dataset.stack_pair (Dataset.chunks 32 false (combine x y)) in
               match test_steps (weights m) batches g with
               | inl e => inl e
               | inr (losses, matches, g') =>
                   inr ([mean_loss losses; ratio matches (length x)],
                        length batches,
                        {| weights := weights m; compiled := compiled m;
                           test_counter := test_counter m + length batches;
                           predict_counter := predict_counter m |},
                        g')
               end
           end
  end.

(** [model.fit(x, y, batch_size, epochs)]: each epoch reshuffles the samples,
    cuts them into batches (the last one possibly shorter) and runs one
    training-mode step per batch; the epoch's mean loss and accuracy are
    appended to the history. *)
Definition train_step (bx : list Image) (by_ : list Label)
  (st : Params * Optimizer * Rng) : Result (Scalar * nat * (Params * Optimizer * Rng)) :=
  let '(w, o, g) := st in
  let data := stack_images bx in
  let '(y_pred, g') := model_call (Some true) w data g in
  let grads :=
    tape_gradient (fun v => scce by_ (fst (model_call (Some true) v data g))) w in
  let '(o', w') := apply_gradients o grads w in
  match argmax_axis1 (rows y_pred) with
  | inl e => inl e
  | inr classes => inr (scce by_ y_pred, count_matches by_ classes, (w', o', g'))
  end.

Fixpoint train_steps (batches : list (list Image * list Label))
  (st : Params * Optimizer * Rng)
  : Result (list (Scalar * nat) * nat * (Params * Optimizer * Rng)) :=
  match batches with
  | [] => inr ([], 0, st)
  | (bx, by_) :: rest =>
      match train_step bx by_ st with
      | inl e => inl e
      | inr (loss, matches, st1) =>
          match train_steps rest st1 with
          | inl e => inl e
          | inr (losses, matches', st2) =>
              inr ((loss, length bx) :: losses, matches + matches', st2)
          end
      end
  end.

Fixpoint fit_epochs (n : Z) (batch_size : nat) (samples : list (Image * Label))
  (epochs : list Z) (st : Params * Optimizer * Rng) (h : History) (out : list Line)
  : Result (History * (Params * Optimizer * Rng) * list Line) :=
  match epochs with
  | [] => inr (h, st, out)
  | i :: rest =>
      let '(w, o, g) := st in
      let '(shuffled, g1) := shuffle (Z.of_nat (length samples)) samples g in
      let batches := map Dataset.stack_pair (Dataset.chunks batch_size false shuffled) in
      match train_steps batches (w, o, g1) with
      | inl e => inl e
      | inr (losses, matches, st1) =>
          let loss := mean_loss losses in
          let acc := ratio matches (length samples) in
          fit_epochs n batch_size samples rest st1
            {| h_epoch := h_epoch h ++ [i];
               h_loss := h_loss h ++ [loss];
               h_accuracy := h_accuracy h ++ [acc] |}
            (out ++ [FitEpoch (i + 1) n loss acc])
      end
  end.

Definition fit (m : Model) (x : list Image) (y : list Label) (batch_size epochs : Z)
  (p : Process) : Result (History * Model * Process) :=
  match compiled m with
  | None => inl RuntimeError
  | Some c =>
      if negb (length x =? length y) then inl ValueError
      else if (batch_size <=? 0)%Z then inl ValueError
      else match x with
           | [] => inl ValueError
           | _ :: _ =>
               match fit_epochs epochs (Z.to_nat batch_size) (combine x y) (range epochs)
                       (weights m, optimizer c, rng p)
                       {| h_epoch := []; h_loss := []; h_accuracy := [] |} (stdout p) with
               | inl e => inl e
               | inr (h, (w', o', g'), out) =>
                   inr (h,
                        {| weights := w';
                           compiled := Some {| loss_name := loss_name c; optimizer := o';
                                               metrics_names := metrics_names c |};
                           test_counter := test_counter m;
                           predict_counter := predict_counter m |},
                        {| rng := g'; ticks := ticks p; stdout := out;
                           figures := figures p |})
               end
           end
  end.

(** ** The notebook's global state and its cells *)

Record Data : Type := {
  x_train : list Image;
  y_train : list Label;
  x_test : list Image;
  y_test : list Label
}.

Record Kernel : Type := {
  data : Data;                                 (* bound by the loading cell *)
  k_dataset : option (list (Image * Label));   (* dataset *)
  cnn_model : option Model;
  history : option History;
  x_test_reshaped : option (list Image);
  scores : option (list Scalar);
  predictions : option (list (list Scalar));
  cm : option (list (list nat));
  k_proc : Process
}.

Definition set_proc (p : Process) (k : Kernel) : Kernel :=
  {| data := data k; k_dataset := k_dataset k; cnn_model := cnn_model k;
     history := history k; x_test_reshaped := x_test_reshaped k; scores := scores k;
     predictions := predictions k; cm := cm k; k_proc := p |}.

Definition set_dataset (ds : list (Image * Label)) (k : Kernel) : Kernel :=
  {| data := data k; k_dataset := Some ds; cnn_model := cnn_model k;
     history := history k; x_test_reshaped := x_test_reshaped k; scores := scores k;
     predictions := predictions k; cm := cm k; k_proc := k_proc k |}.

Definition set_cnn_model (m : Model) (k : Kernel) : Kernel :=
  {| data := data k; k_dataset := k_dataset k; cnn_model := Some m;
     history := history k; x_test_reshaped := x_test_reshaped k; scores := scores k;
     predictions := predictions k; cm := cm k; k_proc := k_proc k |}.

Definition set_history (h : History) (k : Kernel) : Kernel :=
  {| data := data k; k_dataset := k_dataset k; cnn_model := cnn_model k;
     history := Some h; x_test_reshaped := x_test_reshaped k; scores := scores k;
     predictions := predictions k; cm := cm k; k_proc := k_proc k |}.

Definition set_x_test_reshaped (x : list Image) (k : Kernel) : Kernel :=
  {| data := data k; k_dataset := k_dataset k; cnn_model := cnn_model k;
     history := history k; x_test_reshaped := Some x; scores := scores k;
     predictions := predictions k; cm := cm k; k_proc := k_proc k |}.

Definition set_scores (s : list Scalar) (k : Kernel) : Kernel :=
  {| data := data k; k_dataset := k_dataset k; cnn_model := cnn_model k;
     history := history k; x_test_reshaped := x_test_reshaped k; scores := Some s;
     predictions := predictions k; cm := cm k; k_proc := k_proc k |}.

Definition set_predictions (p : list (list Scalar)) (k : Kernel) : Kernel :=
  {| data := data k; k_dataset := k_dataset k; cnn_model := cnn_model k;
     history := history k; x_test_reshaped := x_test_reshaped k; scores := scores k;
     predictions := Some p; cm := cm k; k_proc := k_proc k |}.

Definition set_cm (c : list (list nat)) (k : Kernel) : Kernel :=
  {| data := data k; k_dataset := k_dataset k; cnn_model := cnn_model k;
     history := history k; x_test_reshaped := x_test_reshaped k; scores := scores k;
     predictions := predictions k; cm := Some c; k_proc := k_proc k |}.

Definition k_print (l : Line) : M Kernel unit :=
  modify (fun k => set_proc (emit l (k_proc k)) k).

Definition global {A} (field : Kernel -> option A) : M Kernel A :=
  k <- get ;;
  match field k with
  | None => raise NameError
  | Some a => ret a
  end.

(** [train_network(_batch_size, _n_training_epochs, _lr)]: the model and the
    optimizer are locals; nothing is returned. *)
Definition train_network (_batch_size _n_training_epochs : Z) (_lr : Q)
  : M Kernel Returned :=
  fun k =>
    let mnist_model := CIFAR10Classifier in
    let opt := Adam _lr in
    match train_loop _batch_size _n_training_epochs
            {| model := mnist_model; opt := opt; dataset := k_dataset k;
               proc := k_proc k |} with
    | inl e => inl e
    | inr (_, r) => inr (RetNone, set_proc (proc r) k)
    end.

(** [train_network_concise(_batch_size, _n_training_epochs, _lr)] *)
Definition train_network_concise (_batch_size _n_training_epochs : Z) (_lr : Q)
  : M Kernel Returned :=
  fun k =>
    let cnn_model := CIFAR10Classifier in
    (* [compile] stores the loss, the optimizer and the metrics on the model
       object and reads no variable; the model is built by the first training
       step of [fit].  Here it is built before [compile]. *)
    let '(cnn_model, g) := build cnn_model (rng (k_proc k)) in
    match compile cnn_model "sparse_categorical_crossentropy" "adam" with
    | inl e => inl e
    | inr cnn_model =>
        match fit cnn_model (x_train (data k)) (y_train (data k))
                _batch_size _n_training_epochs (set_rng g (k_proc k)) with
        | inl e => inl e
        | inr (history, cnn_model, p) =>
            inr (RetHistoryModel history cnn_model, set_proc p k)
        end
    end.

(** Cell: [history, cnn_model = train_network_concise(batch_size, epochs, lr)]
    with batch_size = 512, epochs = 3, lr = .01. *)
Definition concise_training_cell : M Kernel unit :=
  r <- train_network_concise 512 3 (1 # 100)%Q ;;
  match r with
  | RetNone => raise TypeError
  | RetHistoryModel h m => modify (set_history h) ;; modify (set_cnn_model m)
  end.

(** [plt.plot(xs, ys)] needs as many abscissas as ordinates. *)
Definition plot (t : string) (px : list Z) (py : list Scalar) : M Kernel unit :=
  if negb (length px =? length py) then raise ValueError
  else modify (fun k => set_proc (draw {| title := t; xs := px; ys := py |} (k_proc k)) k).

(** Cell: the loss and accuracy curves. *)
Definition plot_cell : M Kernel unit :=
  h <- global history ;;
  plot "loss" (h_epoch h) (h_loss h) ;;
  plot "accuracy" (h_epoch h) (h_accuracy h).

(** Cell: test accuracy. *)
Definition evaluate_cell : M Kernel unit :=
  k <- get ;;
  modify (set_x_test_reshaped (x_test (data k))) ;;   (* numpy.expand_dims(x_test, -1) *)
  m <- global cnn_model ;;
  k <- get ;;
  res <- lift (evaluate m (x_test (data k)) (y_test (data k)) (rng (k_proc k))) ;;
  let '(s, steps, m', g') := res in
  modify (set_cnn_model m') ;;
  modify (fun k => set_proc (set_rng g' (k_proc k)) k) ;;
  k_print (EvaluateLine steps (nth 0 s (ratio 0 0)) (nth 1 s (ratio 0 0))) ;;
  modify (set_scores s) ;;
  m <- global cnn_model ;;
  match compiled m with
  | None => raise RuntimeError
  | Some c =>
      match nth_error (metrics_names c) 1, nth_error s 1 with
      | Some name, Some score => k_print (Percent name score)
      | _, _ => raise IndexError
      end
  end.

(** Cell: confusion matrix and per-class accuracy. *)
Definition confusion_cell : M Kernel unit :=
  k_print (Text "Confusion matrix (rows: true classes; columns: predicted classes):") ;;
  k_print (Text "") ;;
  m <- global cnn_model ;;
  k <- get ;;
  res <- lift (predict m (x_test (data k)) (rng (k_proc k))) ;;
  let '(p, m', g') := res in
  modify (set_cnn_model m') ;;
  modify (fun k => set_proc (set_rng g' (k_proc k)) k) ;;
  modify (set_predictions p) ;;
  classes <- lift (argmax_axis1 p) ;;
  k <- get ;;
  c <- lift (Metrics.confusion_matrix (y_test (data k)) classes Metrics.labels10) ;;
  modify (set_cm c) ;;
  k_print (Matrix c) ;; k_print (Text "") ;;
  k_print (Text "Classification accuracy for each class:") ;; k_print (Text "") ;;
  for_each (enumerate (Metrics.per_class_accuracy c))
    (fun '(i, j) => k_print (ClassAccuracy i j)).

(** Cell: build [dataset] and run the manual training. *)
Definition manual_training_cell : M Kernel unit :=
  k <- get ;;
  ds <- lift (Dataset.from_tensor_slices (x_train (data k)) (y_train (data k))) ;;
  modify (set_dataset ds) ;;
  let _shuffled := shuffle 50000 ds in                (* dataset.shuffle(50000) *)
  _ <- train_network 512 3 (1 # 100)%Q ;;
  ret tt.

(** The part of the notebook's state that evaluation and reporting must not
    change: the four dataset arrays, the [dataset] object, the parameters of
    [cnn_model], its optimizer, and the training history. *)
Definition same_model_and_data (k k' : Kernel) : Prop :=
  data k' = data k /\
  k_dataset k' = k_dataset k /\
  option_map weights (cnn_model k') = option_map weights (cnn_model k) /\
  option_map compiled (cnn_model k') = option_map compiled (cnn_model k) /\
  history k' = history k.

End Notebook.

(** ** Closed forms the training loop is compared with *)

Section ClosedForms.
Context {F : Framework}.

(** The six deterministic layers of the classifier, composed. *)
Definition infer (w : Params) (inputs : Tensor) : Tensor :=
  dense_7 w (dense_5 w (flatten (pool_3 (conv_2 w (conv_1 w inputs))))).

(** One optimizer step on one batch: the gradient, at the current
    parameters, of the loss of the deterministic layers' output. *)
Definition batch_update (st : Params * Optimizer) (b : list Image * list Label)
  : Params * Optimizer :=
  let data := reshape_nhwc (stack_images (fst b)) in
  let grads := tape_gradient (fun v => scce (snd b) (infer v data)) (fst st) in
  let '(o', w') := apply_gradients (snd st) grads (fst st) in
  (w', o').

(** One pass over a list of batches, in order. *)
Definition one_pass (batches : list (list Image * list Label))
  (st : Params * Optimizer) : Params * Optimizer :=
  fold_left batch_update batches st.

(** The lines printed by the epochs [epochs] when the clock has been read
    [t] times before: each epoch reads it twice. *)
Fixpoint epoch_lines (t : nat) (epochs : list Z) : list Line :=
  match epochs with
  | [] => []
  | i :: rest =>
      BeginningEpoch i
      :: TookSeconds (time_at (S t) - time_at t)%Q i
      :: epoch_lines (S (S t)) rest
  end.

(** The model of a run as its next call will find it, built if need be, and
    the generator as that call will leave it. *)
Definition built_model (r : Run) : Model := fst (build (model r) (rng (proc r))).
Definition built_rng (r : Run) : Rng := snd (build (model r) (rng (proc r))).

(** [trained r0 st lines k n r]: relative to [r0], the state [r] is [n]
    training steps later: its parameters (as the next call finds them) and
    optimizer are [st], it has printed [lines] more and read the clock [k]
    more times.  The model object is untouched as long as no step has run and
    is built once one has; the generator has been consulted for the build
    and for nothing else. *)
Definition trained (r0 : Run) (st : Params * Optimizer) (lines : list Line) (k n : nat)
  (r : Run) : Prop :=
  (weights (built_model r), opt r) = st /\
  compiled (built_model r) = compiled (built_model r0) /\
  test_counter (built_model r) = test_counter (built_model r0) /\
  predict_counter (built_model r) = predict_counter (built_model r0) /\
  dataset r = dataset r0 /\
  built_rng r = built_rng r0 /\
  ticks (proc r) = ticks (proc r0) + k /\
  stdout (proc r) = stdout (proc r0) ++ lines /\
  figures (proc r) = figures (proc r0) /\
  (n = 0 -> model r = model r0 /\ rng (proc r) = rng (proc r0)) /\
  (n <> 0 -> model r = Some (built_model r) /\ rng (proc r) = built_rng r0).

(** The rows [predict] returns for the images [x] under parameters [w]:
    the deterministic layers' output on each batch of 32, concatenated. *)
Definition predicted (w : Params) (x : list Image) : list (list Scalar) :=
  concat (map (fun b => rows (infer w (stack_images b))) (Dataset.chunks 32 false x)).

(** The shape of the classifier's output: one row per image of the batch,
    each row holding at least one and at most ten scores ([Dense(10)] gives
    exactly ten). *)
Definition well_shaped : Prop :=
  forall (training : option bool) (w : Params) (images : list Image) (g : Rng),
    let out := rows (fst (model_call training w (stack_images images) g)) in
    length out = length images /\
    Forall (fun row => 0 < length row <= 10) out.

End ClosedForms.

(** ** A small concrete framework

    Integer-valued stand-ins for the numerical operations, used to run the
    definitions on concrete inputs.  Their dropout zeroes every feature and
    their shuffle reverses the dataset, so that either would show in a result
    if it were applied. *)

Definition toy : Framework := {|
  host := {| reserve_limit := 1000000 |};
  Image := nat;
  Tensor := list (list nat);
  Scalar := nat;
  Params := nat;
  Grads := nat;
  Slots := nat;
  Rng := nat;
  conv_1 := fun w t => map (map (Nat.add w)) t;
  conv_2 := fun w t => map (map (Nat.mul 2)) t;
  pool_3 := fun t => t;
  flatten := fun t => t;
  dense_5 := fun w t => map (map (Nat.add 1)) t;
  dense_7 := fun w t => map (fun r => [list_sum r mod 2; 1 - list_sum r mod 2]) t;
  random_dropout := fun rate g t => (map (map (fun _ => 0)) t, S g);
  init_weights := fun g => (g, S g);
  stack_images := fun xs => map (fun x => [x]) xs;
  reshape_nhwc := fun t => t;
  rows := fun t => t;
  gtb := fun a b => b <? a;
  scce := fun ys t => list_sum (map (@list_sum) t);
  tape_gradient := fun f w => f w;
  adam_step := fun lr step s gr w => (s + gr, w + 1);
  adam_slots0 := 0;
  mean_loss := fun l => list_sum (map fst l);
  ratio := fun a b => a;
  shuffle := fun E n l g => (rev l, S g);
  time_at := fun k => inject_Z (Z.of_nat k)
|}.

Definition toy_process : @Process toy :=
  @Build_Process toy 0 0 [] [].

(** Four images, two of class 0 and two of class 1. *)
Definition four_samples : list (@Image toy * Label) :=
  [(10, 0%Z); (11, 0%Z); (12, 1%Z); (13, 1%Z)].

Definition toy_run (ds : list (@Image toy * Label)) : @Run toy :=
  @Build_Run toy (@CIFAR10Classifier toy) (@Adam toy (1 # 100)%Q)
    (Some ds) toy_process.

(** A notebook state with three training and two test samples, before and
    after the concise training cell has run. *)
Definition toy_kernel : @Kernel toy :=
  @Build_Kernel toy (@Build_Data toy [1; 2; 3] [0; 1; 0]%Z [4; 5] [1; 0]%Z)
    None None None None None None None toy_process.

Definition toy_trained_kernel : @Kernel toy :=
  match concise_training_cell (F := toy) toy_kernel with
  | inr (_, k) => k
  | inl _ => toy_kernel
  end.

(** * Properties *)

Example chunks_5_2 : Dataset.chunks 2 true [1;2;3;4;5] = [[1;2];[3;4]].
Proof. reflexivity. Qed.

Example chunks_5_2_keep : Dataset.chunks 2 false [1;2;3;4;5] = [[1;2];[3;4];[5]].
Proof. reflexivity. Qed.

Example cm_small :
  Metrics.confusion_matrix [0; 1; 1]%Z [0; 1; 0]%Z [0; 1]%Z = inr [[1; 0]; [1; 1]].
Proof. reflexivity. Qed.

Example per_class_small :
  Metrics.per_class_accuracy [[1; 0]; [1; 1]] =
  [Metrics.Finite (1 # 1)%Q; Metrics.Finite (1 # 2)%Q].
Proof. reflexivity. Qed.

(** ** Batching with drop_remainder *)

Section ChunkFacts.
Context {A : Type}.
Implicit Types (ds : list A) (b : nat).

Lemma div_step (n b : nat) : S b <= n -> n / S b = S ((n - S b) / S b).
Proof.
  intros H.
  replace n with ((n - S b) + 1 * S b) at 1 by lia.
  rewrite Nat.div_add by lia. lia.
Qed.

Lemma chunks_drop_length b ds :
  length (Dataset.chunks (S b) true ds) = length ds / S b.
Proof.
  funelim (Dataset.chunks (S b) true ds).
  - reflexivity.
  - rewrite (div_step (n := length (x :: ds)) (b := b)) by assumption.
    rewrite <- length_skipn.
    match goal with IH : length (Dataset.chunks _ _ _) = _ |- _ => rewrite <- IH end.
    reflexivity.
  - symmetry. apply Nat.div_small. assumption.
Qed.

Lemma chunks_drop_sizes b ds :
  Forall (fun c => length c = S b) (Dataset.chunks (S b) true ds).
Proof.
  funelim (Dataset.chunks (S b) true ds).
  - constructor.
  - constructor; [ | assumption ].
    rewrite length_firstn. lia.
  - constructor.
Qed.

Lemma chunks_drop_concat b ds :
  concat (Dataset.chunks (S b) true ds) = firstn (S b * (length ds / S b)) ds.
Proof.
  funelim (Dataset.chunks (S b) true ds).
  - rewrite firstn_nil. reflexivity.
  - cbn [concat].
    match goal with IH : concat _ = _ |- _ => rewrite IH end.
    rewrite length_skipn.
    rewrite (div_step (n := length (x :: ds)) (b := b)) by assumption.
    set (q := (length (x :: ds) - S b) / S b).
    replace (S b * S q) with (S b + S b * q) by lia.
    rewrite <- (firstn_skipn (S b) (x :: ds)) at 3.
    rewrite firstn_app, length_firstn.
    replace (S b + S b * q - Nat.min (S b) (length (x :: ds))) with (S b * q) by lia.
    rewrite firstn_firstn.
    replace (Nat.min (S b + S b * q) (S b)) with (S b) by lia.
    reflexivity.
  - rewrite Nat.div_small by assumption. rewrite Nat.mul_0_r. reflexivity.
Qed.

End ChunkFacts.


(** ** Reasoning about monadic code *)

Section Ensures.
Context {S : Type}.

Lemma ensures_intro {A} (m : M S A) s a s' (Q : A -> S -> Prop) :
  m s = inr (a, s') -> Q a s' -> ensures m s Q.
Proof. unfold ensures. intros -> H. exact H. Qed.

Lemma ensures_elim {A} (m : M S A) s (Q : A -> S -> Prop) :
  ensures m s Q -> exists a s', m s = inr (a, s') /\ Q a s'.
Proof.
  unfold ensures. destruct (m s) as [e | [a s']]; [contradiction | ].
  intros H. exists a, s'. split; [reflexivity | exact H].
Qed.

Lemma ensures_mono {A} (m : M S A) s (P Q : A -> S -> Prop) :
  ensures m s P -> (forall a s', P a s' -> Q a s') -> ensures m s Q.
Proof.
  unfold ensures. destruct (m s) as [e | [a s']]; [contradiction | ].
  intros H HPQ. apply HPQ. exact H.
Qed.

Lemma ensures_ret {A} (a : A) s (Q : A -> S -> Prop) :
  Q a s -> ensures (ret a) s Q.
Proof. intros H. exact H. Qed.

Lemma ensures_bind {A B} (m : M S A) (k : A -> M S B) s (Q : B -> S -> Prop) :
  ensures m s (fun a s' => ensures (k a) s' Q) -> ensures (bind m k) s Q.
Proof.
  unfold ensures, bind. destruct (m s) as [e | [a s']]; [contradiction | ].
  intros H. exact H.
Qed.

Lemma ensures_lift {A} (r : Result A) a s (Q : A -> S -> Prop) :
  r = inr a -> Q a s -> ensures (lift r) s Q.
Proof. intros -> H. exact H. Qed.

(** A [for] loop with an invariant indexed by the number of iterations done. *)
Lemma ensures_for_each {A} (I : nat -> S -> Prop) (body : A -> M S unit) :
  (forall k x s, I k s -> ensures (body x) s (fun _ s' => I (Datatypes.S k) s')) ->
  forall (l : list A) k s,
    I k s -> ensures (for_each l body) s (fun _ s' => I (k + length l) s').
Proof.
  intros Hbody l. induction l as [ | x l IH ]; intros k s HI.
  - apply ensures_ret. rewrite Nat.add_0_r. exact HI.
  - cbn [for_each]. apply ensures_bind.
    eapply ensures_mono; [ apply (Hbody k x s HI) | ].
    intros u s' HI'. cbn beta in *.
    eapply ensures_mono; [ apply (IH (Datatypes.S k) s' HI') | ].
    intros u' s'' H. cbn [length]. rewrite Nat.add_succ_r. exact H.
Qed.

End Ensures.

(** ** The manual training loop *)

Section TrainingFacts.
Context {F : Framework}.

Lemma length_enumerate {A} (l : list A) : length (enumerate l) = length l.
Proof.
  unfold enumerate. rewrite length_combine, length_map, length_seq. lia.
Qed.

Lemma length_range (n : Z) : length (range n) = Z.to_nat n.
Proof. unfold range. rewrite length_map, length_seq. reflexivity. Qed.

(** Every host takes the batch sizes up to 65536. *)
Lemma batch_limit_least : (65536 <= Dataset.batch_limit)%Z.
Proof. unfold Dataset.batch_limit, Dataset.slots. lia. Qed.

Lemma small_batch_within_limit (batch_size : Z) :
  (0 < batch_size <= 65536)%Z -> (0 < batch_size <= Dataset.batch_limit)%Z.
Proof. pose proof batch_limit_least. lia. Qed.

(** Batching with [drop_remainder=True] succeeds on a positive batch size
    within the limit. *)
Lemma batch_within_limit {A} (batch_size : Z) (ds : list A) :
  (0 < batch_size <= Dataset.batch_limit)%Z ->
  Dataset.batch batch_size true ds = inr (Dataset.chunks (Z.to_nat batch_size) true ds).
Proof.
  intros [Hpos Hle]. unfold Dataset.batch_limit in Hle. unfold Dataset.batch.
  replace (batch_size <? - 2 ^ 63)%Z with false by (symmetry; apply Z.ltb_ge; lia).
  replace (2 ^ 63 <=? batch_size)%Z with false by (symmetry; apply Z.leb_gt; lia).
  replace (batch_size <? 0)%Z with false by (symmetry; apply Z.ltb_ge; lia).
  replace (batch_size =? 0)%Z with false by (symmetry; apply Z.eqb_neq; lia).
  replace (Dataset.slots <? batch_size)%Z with false by (symmetry; apply Z.ltb_ge; lia).
  reflexivity.
Qed.

(** With a positive batch size within the limit the batches of an epoch are
    the full chunks of the dataset, whatever [shuffle] computes. *)
Lemma epoch_batches_positive (batch_size : Z) (ds : list (Image * Label)) :
  (0 < batch_size <= Dataset.batch_limit)%Z ->
  epoch_batches batch_size ds =
  inr (map Dataset.stack_pair (Dataset.chunks (Z.to_nat batch_size) true ds)).
Proof.
  intros H. unfold epoch_batches. rewrite (batch_within_limit _ H). reflexivity.
Qed.

Lemma advanced_refl r : advanced r 0 0 r.
Proof. unfold advanced. repeat split; lia. Qed.

(** One training iteration always succeeds and advances the optimizer's step
    counter by one. *)
Lemma train_iteration_effect (data : Tensor) (y_true : list Label) r0 k l (r : Run) :
  advanced r0 k l r ->
  ensures (train_iteration data y_true) r (fun _ r' => advanced r0 (S k) l r').
Proof.
  intros (Hit & Hlr & Hds & Hout & _).
  unfold ensures, train_iteration.
  destruct (build _ _) as [m g].
  destruct (forward_pass _ _ _ _) as [loss g'].
  unfold apply_gradients.
  destruct (adam_step _ _ _ _ _) as [s' w'].
  unfold advanced. cbn. repeat split; try assumption; try discriminate. lia.
Qed.

Lemma print_effect (line : Line) r0 k l (r : Run) :
  advanced r0 k l r ->
  ensures (print line) r (fun _ r' => advanced r0 k (S l) r').
Proof.
  intros (Hit & Hlr & Hds & Hout & Hsame).
  unfold ensures, advanced. cbn. rewrite length_app. cbn.
  repeat split; try assumption; try (apply Hsame; assumption). lia.
Qed.

Lemma time_effect r0 k l (r : Run) :
  advanced r0 k l r ->
  ensures time r (fun _ r' => advanced r0 k l r').
Proof.
  intros H. unfold ensures, advanced. cbn. exact H.
Qed.

(** One epoch on a bound dataset with a positive batch size: it succeeds,
    runs one optimizer step per full chunk and prints two lines. *)
Lemma epoch_effect (batch_size i_epoch : Z) (ds : list (Image * Label)) r0 k l (r : Run) :
  (0 < batch_size <= Dataset.batch_limit)%Z ->
  dataset r0 = Some ds ->
  advanced r0 k l r ->
  ensures (epoch batch_size i_epoch) r
    (fun _ r' =>
       advanced r0 (k + length (Dataset.chunks (Z.to_nat batch_size) true ds)) (l + 2) r').
Proof.
  intros Hpos Hds Hadv. unfold epoch.
  apply ensures_bind.
  eapply ensures_mono; [ apply (print_effect _ Hadv) | ]. intros u1 r1 H1. cbn beta in *.
  apply ensures_bind.
  eapply ensures_mono; [ apply (time_effect H1) | ]. intros start r2 H2. cbn beta in *.
  apply ensures_bind.
  eapply ensures_lift.
  { unfold epoch_steps_of. destruct (Z.eqb_spec batch_size 0); [lia | reflexivity]. }
  apply ensures_bind.
  assert (Hr2 : dataset r2 = Some ds) by (destruct H2 as (_ & _ & -> & _); exact Hds).
  unfold read_dataset. apply ensures_bind. unfold ensures at 1. cbn.
  rewrite Hr2. apply ensures_ret.
  apply ensures_bind. eapply ensures_lift; [ apply epoch_batches_positive; exact Hpos | ].
  apply ensures_bind.
  eapply ensures_mono.
  { apply (ensures_for_each (fun j s => advanced r0 j (S l) s)).
    - intros j [i_batch [batch_data y_true]] s Hs.
      apply ensures_bind.
      eapply ensures_mono; [ apply (train_iteration_effect _ _ Hs) | ].
      intros u s' Hs'. apply ensures_ret. exact Hs'.
    - exact H2. }
  intros u3 r3 H3. cbn beta in *.
  rewrite length_enumerate, length_map in H3.
  apply ensures_bind.
  eapply ensures_mono; [ apply (time_effect H3) | ]. intros end_ r4 H4. cbn beta in *.
  eapply ensures_mono; [ apply (print_effect _ H4) | ]. intros u5 r5 H5.
  replace (l + 2) with (S (S l)) by lia. exact H5.
Qed.

(** The whole loop: every epoch runs the same number of optimizer steps, and
    the call evaluates to [None]. *)
Lemma train_loop_effect (batch_size n_training_epochs : Z) (ds : list (Image * Label))
  (r : Run) :
  (0 < batch_size <= Dataset.batch_limit)%Z ->
  dataset r = Some ds ->
  ensures (train_loop batch_size n_training_epochs) r
    (fun v r' =>
       v = RetNone /\
       advanced r
         (Z.to_nat n_training_epochs * length (Dataset.chunks (Z.to_nat batch_size) true ds))
         (Z.to_nat n_training_epochs * 2) r').
Proof.
  intros Hpos Hds. unfold train_loop.
  set (nb := length (Dataset.chunks (Z.to_nat batch_size) true ds)).
  apply ensures_bind.
  eapply ensures_mono.
  { apply (ensures_for_each (fun j s => advanced r (j * nb) (j * 2) s)) with (k := 0).
    - intros j i_epoch s Hs.
      eapply ensures_mono; [ apply (epoch_effect i_epoch Hpos Hds Hs) | ].
      intros u s' Hs'. fold nb in Hs'.
      replace (S j * nb) with (j * nb + nb) by lia.
      replace (S j * 2) with (j * 2 + 2) by lia. exact Hs'.
    - apply advanced_refl. }
  intros u r' H. cbn beta in *. apply ensures_ret.
  rewrite length_range in H. cbn [Nat.add] in H. split; [reflexivity | exact H].
Qed.

End TrainingFacts.

(** ** The exact effect of a run of the manual training loop *)

Section ForEachPrefix.
Context {S A : Type}.

(** A [for] loop with an invariant over the elements already processed. *)
Lemma ensures_for_each_prefix (I : list A -> S -> Prop) (body : A -> M S unit) :
  (forall pre x s, I pre s -> ensures (body x) s (fun _ s' => I (pre ++ [x]) s')) ->
  forall (l pre : list A) s,
    I pre s -> ensures (for_each l body) s (fun _ s' => I (pre ++ l) s').
Proof.
  intros Hbody l. induction l as [ | x l IH ]; intros pre s HI.
  - apply ensures_ret. rewrite app_nil_r. exact HI.
  - cbn [for_each]. apply ensures_bind.
    eapply ensures_mono; [ apply (Hbody pre x s HI) | ].
    intros u s' HI'. cbn beta in *.
    eapply ensures_mono; [ apply (IH (pre ++ [x]) s' HI') | ].
    intros u' s'' H. cbn beta in *. rewrite <- app_assoc in H. exact H.
Qed.

End ForEachPrefix.

Section ExactRun.
Context {F : Framework}.

Lemma map_snd_enumerate {A} (l : list A) : map snd (enumerate l) = l.
Proof.
  unfold enumerate.
  generalize (map Z.of_nat (seq 0 (length l))) (length_map Z.of_nat (seq 0 (length l))).
  rewrite length_seq. intros idx. revert idx.
  induction l as [ | a l IH ]; intros [ | i idx ] Hlen; try discriminate; [reflexivity | ].
  cbn. rewrite IH by (cbn in Hlen; lia). reflexivity.
Qed.

Lemma epoch_lines_app (epochs : list Z) (i : Z) :
  forall t,
    epoch_lines t (epochs ++ [i]) =
    epoch_lines t epochs ++
    [BeginningEpoch i;
     TookSeconds (time_at (S (t + 2 * length epochs)) - time_at (t + 2 * length epochs))%Q i].
Proof.
  induction epochs as [ | j epochs IH ]; intros t.
  - cbn. rewrite Nat.add_0_r. reflexivity.
  - cbn [app epoch_lines length]. rewrite IH.
    replace (S (S t) + 2 * length epochs) with (t + 2 * S (length epochs)) by lia.
    reflexivity.
Qed.

Lemma length_epoch_lines (epochs : list Z) :
  forall t, length (epoch_lines t epochs) = 2 * length epochs.
Proof.
  induction epochs as [ | j epochs IH ]; intros t; [reflexivity | ].
  cbn [epoch_lines length]. rewrite IH. lia.
Qed.

Lemma trained_start (r : Run) : trained r (weights (built_model r), opt r) [] 0 0 r.
Proof.
  unfold trained. rewrite app_nil_r, Nat.add_0_r.
  repeat split; try reflexivity; congruence.
Qed.

Lemma train_iteration_trained (bx : list Image) (by_ : list Label) r0 st lines k n
  (r : Run) :
  trained r0 st lines k n r ->
  ensures (train_iteration (reshape_nhwc (stack_images bx)) by_) r
    (fun _ r' => trained r0 (batch_update st (bx, by_)) lines k (S n) r').
Proof.
  intros (Hst & Hc & Htc & Hpc & Hds & Hrng & Htk & Hout & Hfig & _ & _).
  unfold built_model, built_rng in Hst, Hc, Htc, Hpc, Hrng.
  unfold ensures, train_iteration, batch_update.
  destruct (build (model r) (rng (proc r))) as [m g]. cbn [fst snd] in *.
  unfold forward_pass, model_call, call, Dropout, resolve_training.
  subst st. cbn [fst snd].
  change (fun v : Params =>
            fst (compute_loss by_
                   (dense_7 v (dense_5 v (flatten (pool_3 (conv_2 v
                      (conv_1 v (reshape_nhwc (stack_images bx)))))))),
                 g))
    with (fun v : Params => scce by_ (infer v (reshape_nhwc (stack_images bx)))).
  destruct (apply_gradients _ _ _) as [o' w'].
  unfold trained, built_model, built_rng. cbn.
  repeat split; try assumption; try reflexivity; discriminate.
Qed.

Lemma print_trained (line : Line) r0 st lines k n (r : Run) :
  trained r0 st lines k n r ->
  ensures (print line) r (fun _ r' => trained r0 st (lines ++ [line]) k n r').
Proof.
  intros (Hst & Hc & Htc & Hpc & Hds & Hrng & Htk & Hout & Hfig & Hzero & Hbuilt).
  unfold ensures, trained, built_model, built_rng in *. cbn. rewrite Hout, <- app_assoc.
  repeat split; try assumption;
    try (apply Hzero; assumption); apply Hbuilt; assumption.
Qed.

Lemma time_trained r0 st lines k n (r : Run) :
  trained r0 st lines k n r ->
  ensures time r
    (fun now r' => now = time_at (ticks (proc r0) + k) /\ trained r0 st lines (S k) n r').
Proof.
  intros (Hst & Hc & Htc & Hpc & Hds & Hrng & Htk & Hout & Hfig & Hzero & Hbuilt).
  unfold ensures, trained, built_model, built_rng in *. cbn. rewrite Htk.
  repeat split; try assumption; try lia;
    try (apply Hzero; assumption); apply Hbuilt; assumption.
Qed.

Lemma epoch_trained (batch_size i_epoch : Z) (ds : list (Image * Label))
  r0 st lines k n (r : Run) :
  (0 < batch_size <= Dataset.batch_limit)%Z ->
  dataset r0 = Some ds ->
  trained r0 st lines k n r ->
  ensures (epoch batch_size i_epoch) r
    (fun _ r' =>
       trained r0
         (one_pass (map Dataset.stack_pair
                      (Dataset.chunks (Z.to_nat batch_size) true ds)) st)
         (lines ++
          [BeginningEpoch i_epoch;
           TookSeconds (time_at (S (ticks (proc r0) + k))
                        - time_at (ticks (proc r0) + k))%Q i_epoch])
         (k + 2)
         (n + length (Dataset.chunks (Z.to_nat batch_size) true ds)) r').
Proof.
  intros Hpos Hds Htr. unfold epoch.
  apply ensures_bind.
  eapply ensures_mono; [ apply (print_trained _ Htr) | ]. intros u1 r1 H1. cbn beta in *.
  apply ensures_bind.
  eapply ensures_mono; [ apply (time_trained H1) | ].
  intros start r2 [Hstart H2]. cbn beta in *.
  apply ensures_bind.
  eapply ensures_lift.
  { unfold epoch_steps_of. destruct (Z.eqb_spec batch_size 0); [lia | reflexivity]. }
  apply ensures_bind.
  assert (Hr2 : dataset r2 = Some ds).
  { destruct H2 as (_ & _ & _ & _ & -> & _). exact Hds. }
  unfold read_dataset. apply ensures_bind. unfold ensures at 1. cbn.
  rewrite Hr2. apply ensures_ret.
  apply ensures_bind. eapply ensures_lift; [ apply epoch_batches_positive; exact Hpos | ].
  set (batches := map Dataset.stack_pair (Dataset.chunks (Z.to_nat batch_size) true ds)).
  apply ensures_bind.
  eapply ensures_mono.
  { apply (ensures_for_each_prefix
             (fun pre s =>
                trained r0 (fold_left batch_update (map snd pre) st)
                  (lines ++ [BeginningEpoch i_epoch]) (S k) (n + length pre) s))
      with (pre := []).
    - intros pre [i_batch [batch_data y_true]] s Hs.
      apply ensures_bind.
      eapply ensures_mono; [ apply (train_iteration_trained batch_data y_true Hs) | ].
      intros u s' Hs'. apply ensures_ret.
      rewrite map_app, fold_left_app, length_app, Nat.add_1_r, Nat.add_succ_r. exact Hs'.
    - cbn [length]. rewrite Nat.add_0_r. exact H2. }
  intros u3 r3 H3. cbn beta in *.
  cbn [app] in H3. rewrite map_snd_enumerate, length_enumerate in H3.
  unfold batches in H3 at 2. rewrite length_map in H3.
  apply ensures_bind.
  eapply ensures_mono; [ apply (time_trained H3) | ].
  intros end_ r4 [Hend H4]. cbn beta in *.
  eapply ensures_mono; [ apply (print_trained _ H4) | ]. intros u5 r5 H5. cbn beta in *.
  subst start end_. rewrite <- app_assoc in H5. cbn [app] in H5.
  replace (k + 2) with (S (S k)) by lia.
  replace (ticks (proc r0) + S k) with (S (ticks (proc r0) + k)) in H5 by lia.
  exact H5.
Qed.

Lemma train_loop_trained (batch_size n_training_epochs : Z) (ds : list (Image * Label))
  (r : Run) :
  (0 < batch_size <= Dataset.batch_limit)%Z ->
  dataset r = Some ds ->
  ensures (train_loop batch_size n_training_epochs) r
    (fun v r' =>
       v = RetNone /\
       trained r
         (Nat.iter (Z.to_nat n_training_epochs)
            (one_pass (map Dataset.stack_pair
                         (Dataset.chunks (Z.to_nat batch_size) true ds)))
            (weights (built_model r), opt r))
         (epoch_lines (ticks (proc r)) (range n_training_epochs))
         (2 * Z.to_nat n_training_epochs)
         (Z.to_nat n_training_epochs *
          length (Dataset.chunks (Z.to_nat batch_size) true ds)) r').
Proof.
  intros Hpos Hds. unfold train_loop.
  set (pass := one_pass _).
  set (nb := length (Dataset.chunks (Z.to_nat batch_size) true ds)).
  apply ensures_bind.
  eapply ensures_mono.
  { apply (ensures_for_each_prefix
             (fun pre s =>
                trained r (Nat.iter (length pre) pass (weights (built_model r), opt r))
                  (epoch_lines (ticks (proc r)) pre) (2 * length pre)
                  (length pre * nb) s))
      with (pre := []).
    - intros pre i_epoch s Hs.
      eapply ensures_mono; [ apply (epoch_trained i_epoch Hpos Hds Hs) | ].
      intros u s' Hs'. cbn beta in *. fold nb in Hs'.
      rewrite length_app, Nat.add_1_r, epoch_lines_app. cbn [Nat.iter].
      replace (2 * S (length pre)) with (2 * length pre + 2) by lia.
      replace (S (length pre) * nb) with (length pre * nb + nb) by lia.
      exact Hs'.
    - apply trained_start. }
  intros u r' H. cbn beta in *. apply ensures_ret.
  cbn [app] in H. rewrite length_range in H. split; [reflexivity | exact H].
Qed.

End ExactRun.

Lemma ensures_conj {S A} (m : M S A) s (P Q : A -> S -> Prop) :
  ensures m s P -> ensures m s Q -> ensures m s (fun a s' => P a s' /\ Q a s').
Proof.
  unfold ensures. destruct (m s) as [e | [a s']]; [contradiction | ].
  intros HP HQ. split; assumption.
Qed.

(** ** Claims about the manual training loop *)

Lemma combine_fst_snd {A B} (c : list (A * B)) : combine (map fst c) (map snd c) = c.
Proof.
  induction c as [ | [a b] c IH ]; [reflexivity | ].
  cbn. rewrite IH. reflexivity.
Qed.

Lemma concat_stack_pairs {A B} (cs : list (list (A * B))) :
  concat (map (fun b => combine (fst b) (snd b)) (map Dataset.stack_pair cs)) = concat cs.
Proof.
  induction cs as [ | c cs IH ]; [reflexivity | ].
  cbn [map concat]. rewrite IH. cbn [Dataset.stack_pair fst snd].
  rewrite combine_fst_snd. reflexivity.
Qed.

(** C1: for a positive batch size B that the batching takes (an int64 whose
    slots the host can reserve, [Dataset.batch_limit] at most), dividing the
    dataset size or not, the batches of an epoch are floor(size / B) many; each holds exactly B images
    and B labels; zipped back and concatenated they are the first
    B * floor(size / B) samples of the dataset in order, so images and labels
    stay aligned and the remainder is dropped; and in every epoch the loop
    runs one training iteration per such batch and leaves the dataset as it
    was for the next epoch. *)
Theorem batches_per_epoch {F : Framework} (batch_size : Z) (ds : list (Image * Label)) :
  (0 < batch_size <= Dataset.batch_limit)%Z ->
  exists batches,
    epoch_batches batch_size ds = inr batches /\
    Z.of_nat (length batches) = (Z.of_nat (length ds) / batch_size)%Z /\
    Forall (fun b => Z.of_nat (length (fst b)) = batch_size /\
                     Z.of_nat (length (snd b)) = batch_size) batches /\
    concat (map (fun b => combine (fst b) (snd b)) batches) =
      firstn (Z.to_nat (batch_size * (Z.of_nat (length ds) / batch_size))) ds /\
    forall (r : Run) (i_epoch : Z),
      dataset r = Some ds ->
      ensures (epoch batch_size i_epoch) r
        (fun _ r' => dataset r' = Some ds /\
                     iterations (opt r') = iterations (opt r) + length batches).
Proof.
  intros Hpos.
  destruct (Z.to_nat batch_size) as [ | b ] eqn:Hb; [lia | ].
  assert (HB : batch_size = Z.of_nat (S b)) by lia.
  exists (map Dataset.stack_pair (Dataset.chunks (S b) true ds)).
  split; [ rewrite <- Hb; apply epoch_batches_positive; exact Hpos | ].
  split; [ rewrite length_map, chunks_drop_length, HB, Nat2Z.inj_div; reflexivity | ].
  split.
  { apply Forall_map. eapply Forall_impl; [ | apply chunks_drop_sizes ].
    intros c Hc. cbn in *. rewrite !length_map, Hc, HB. split; reflexivity. }
  split.
  { rewrite concat_stack_pairs, chunks_drop_concat. f_equal.
    rewrite HB, <- Nat2Z.inj_div, <- Nat2Z.inj_mul, Nat2Z.id. reflexivity. }
  intros r i_epoch Hds.
  eapply ensures_mono.
  { apply (epoch_effect i_epoch Hpos Hds (advanced_refl r)). }
  intros u r' (Hit & _ & Hds' & _). cbn beta.
  rewrite length_map, <- Hb. split; [congruence | exact Hit].
Qed.

Lemma batches_per_epoch_witness :
  exists batches,
    epoch_batches (F := toy) 3 (four_samples ++ [(14, 1%Z)]) = inr batches /\
    Z.of_nat (length batches) = 1%Z.
Proof.
  destruct (@batches_per_epoch toy 3 (four_samples ++ [(14, 1%Z)]))
    as (batches & Hb & Hlen & _); [ split; [ lia | vm_compute; discriminate ] | ].
  exists batches. split; [ exact Hb | exact Hlen ].
Defined.

Lemma chunks_oversized {A} (n : nat) (ds : list A) :
  length ds < n -> Dataset.chunks n true ds = [].
Proof.
  intros H. destruct n as [ | b ]; [lia | ].
  pose proof (chunks_drop_length b ds) as Hlen.
  rewrite Nat.div_small in Hlen by exact H.
  destruct (Dataset.chunks (S b) true ds); [reflexivity | discriminate].
Qed.

Lemma chunks_whole {A} (ds : list A) :
  0 < length ds -> Dataset.chunks (length ds) true ds = [ds].
Proof.
  intros H. destruct (length ds) as [ | b ] eqn:Hn; [lia | ].
  pose proof (chunks_drop_length b ds) as Hlen.
  pose proof (chunks_drop_concat b ds) as Hcat.
  rewrite Hn, Nat.div_same in Hlen by lia.
  rewrite Hn, Nat.div_same, Nat.mul_1_r, firstn_all2 in Hcat by lia.
  destruct (Dataset.chunks (S b) true ds) as [ | c [ | c' cs ] ]; try discriminate.
  cbn [concat] in Hcat. rewrite app_nil_r in Hcat. congruence.
Qed.

(** C8 (as amended): under drop_remainder batching with a positive batch size
    that is at least the dataset size and that the batching takes (an int64
    whose slots the host can reserve, [Dataset.batch_limit] at most), an
    epoch has exactly one mini-batch (the whole dataset) when the two are
    equal and no mini-batch when the batch size is larger; the loop then
    completes without raising, returns None, runs one optimizer step per
    epoch in the first case and none in the second, where it leaves the model
    and the optimizer exactly as they were. *)
Theorem full_or_oversized_batch {F : Framework} (batch_size : Z)
  (ds : list (Image * Label)) :
  (0 < batch_size <= Dataset.batch_limit)%Z ->
  (Z.of_nat (length ds) <= batch_size)%Z ->
  exists batches,
    epoch_batches batch_size ds = inr batches /\
    (batch_size = Z.of_nat (length ds) -> batches = [Dataset.stack_pair ds]) /\
    ((Z.of_nat (length ds) < batch_size)%Z -> batches = []) /\
    forall (n_training_epochs : Z) (r : Run),
      dataset r = Some ds ->
      ensures (train_loop batch_size n_training_epochs) r
        (fun v r' =>
           v = RetNone /\
           iterations (opt r') =
             iterations (opt r) + Z.to_nat n_training_epochs * length batches /\
           ((Z.of_nat (length ds) < batch_size)%Z ->
            model r' = model r /\ opt r' = opt r)).
Proof.
  intros Hpos Hle.
  exists (map Dataset.stack_pair (Dataset.chunks (Z.to_nat batch_size) true ds)).
  split; [ apply epoch_batches_positive; exact Hpos | ].
  split.
  { intros ->. rewrite Nat2Z.id, chunks_whole by lia. reflexivity. }
  split.
  { intros Hlt. rewrite chunks_oversized by lia. reflexivity. }
  intros n_training_epochs r Hds.
  eapply ensures_mono; [ apply (train_loop_effect n_training_epochs r Hpos Hds) | ].
  intros v r' (Hv & Hit & _ & _ & _ & Hsame). cbn beta.
  rewrite length_map.
  split; [ exact Hv | ]. split; [ exact Hit | ].
  intros Hlt. apply Hsame.
  rewrite chunks_oversized by lia. cbn [length]. lia.
Qed.

Lemma full_or_oversized_batch_witness :
  (exists batches,
     epoch_batches (F := toy) 4 four_samples = inr batches /\ length batches = 1) /\
  (exists batches,
     epoch_batches (F := toy) 5 four_samples = inr batches /\ batches = [] /\
     ensures (train_loop (F := toy) 5 3) (toy_run four_samples)
       (fun v r' => v = RetNone /\ opt r' = opt (toy_run four_samples))).
Proof.
  split.
  - destruct (@full_or_oversized_batch toy 4 four_samples)
      as (batches & Hb & Heq & _); [ split; [ lia | vm_compute; discriminate ] | cbn; lia | ].
    exists batches. split; [ exact Hb | ]. rewrite Heq; reflexivity.
  - destruct (@full_or_oversized_batch toy 5 four_samples)
      as (batches & Hb & _ & Hgt & Hrun); [ split; [ lia | vm_compute; discriminate ] | cbn; lia | ].
    exists batches. split; [ exact Hb | ]. split; [ apply Hgt; cbn; lia | ].
    eapply ensures_mono; [ apply (Hrun 3%Z (toy_run four_samples) eq_refl) | ].
    intros v r' (Hv & _ & Hsame). split; [ exact Hv | ]. apply Hsame. cbn. lia.
Defined.

(** The claim C8 as stated fails: a batch size exceeding the dataset size can
    make the loop raise.  The batching reserves [batch_size] slots when it
    drops the remainder, so on a host that can reserve a million slots the
    loop is aborted at two million; and on every host a batch size of 2^63
    is no int64 and is refused with ValueError. *)
Lemma oversized_batch_can_raise :
  (Z.of_nat (length four_samples) < 2000000)%Z /\
  train_loop (F := toy) 2000000 1 (toy_run four_samples) = inl Aborted /\
  train_loop (F := toy) (2 ^ 63) 1 (toy_run four_samples) = inl ValueError /\
  ~ ensures (train_loop (F := toy) (2 ^ 63) 1) (toy_run four_samples)
      (fun v r' => v = RetNone).
Proof.
  split; [ cbn; lia | ].
  split; [ vm_compute; reflexivity | ].
  split; [ vm_compute; reflexivity | ].
  unfold ensures. vm_compute. intros H. exact H.
Qed.

(** C4 (as amended): on a training partition of four samples with batch size
    2 and one epoch, a run of the manual loop succeeds, runs exactly two
    optimizer steps, prints the epoch's begin line and then its timing line
    (the difference of the two clock readings taken around the epoch) and
    nothing else, and evaluates to None; it builds no history record, and
    [train_network] around it returns None and leaves the notebook's
    [history] variable as it found it. *)
Theorem manual_loop_four_samples {F : Framework} (ds : list (Image * Label)) (r : Run) :
  length ds = 4 ->
  dataset r = Some ds ->
  ensures (train_loop 2 1) r
    (fun v r' =>
       v = RetNone /\
       iterations (opt r') = iterations (opt r) + 2 /\
       stdout (proc r') =
         stdout (proc r) ++
         [BeginningEpoch 0;
          TookSeconds (time_at (S (ticks (proc r))) - time_at (ticks (proc r)))%Q 0]) /\
  forall (k : Kernel) (lr : Q),
    k_dataset k = Some ds ->
    ensures (train_network 2 1 lr) k
      (fun v k' => v = RetNone /\ history k' = history k /\ cnn_model k' = cnn_model k).
Proof.
  intros Hlen Hds.
  assert (Hchunks : length (Dataset.chunks (Z.to_nat 2) true ds) = 2).
  { change (Z.to_nat 2) with 2. rewrite chunks_drop_length, Hlen. reflexivity. }
  assert (Hsize : (0 < 2 <= Dataset.batch_limit)%Z)
    by (apply small_batch_within_limit; lia).
  split.
  - eapply ensures_mono.
    { apply ensures_conj.
      - apply (train_loop_trained 1 r Hsize Hds).
      - apply (train_loop_effect 1 r Hsize Hds). }
    intros v r' [[Hv (_ & _ & _ & _ & _ & _ & _ & Hout & _)] [_ (Hit & _)]].
    cbn beta in *.
    rewrite Hchunks in Hit. change (Z.to_nat 1) with 1 in *.
    split; [ exact Hv | ]. split; [ lia | exact Hout ].
  - intros k lr Hk. unfold ensures, train_network.
    match goal with |- context [train_loop 2 1 ?r0] =>
      pose proof (train_loop_effect (batch_size := 2) 1 r0 (ds := ds) Hsize Hk) as Hrun
    end.
    apply ensures_elim in Hrun. destruct Hrun as (v & r' & Hrun & Hv & _). subst v.
    rewrite Hrun. cbn. repeat split; reflexivity.
Qed.

Lemma manual_loop_four_samples_witness :
  ensures (train_loop (F := toy) 2 1) (toy_run four_samples)
    (fun v r' =>
       v = RetNone /\ iterations (opt r') = 2 /\
       stdout (proc r') = [BeginningEpoch 0; TookSeconds 1 0]).
Proof.
  destruct (@manual_loop_four_samples toy four_samples (toy_run four_samples)
              eq_refl eq_refl) as [Hloop _].
  eapply ensures_mono; [ exact Hloop | ].
  intros v r' (Hv & Hit & Hout).
  split; [ exact Hv | ]. split; [ exact Hit | exact Hout ].
Defined.

(** The claim C4 as stated fails: after the run of the manual loop on the
    four-sample dataset there is no history record with one entry, since the
    call evaluates to None. *)
Lemma manual_loop_keeps_no_history :
  ~ ensures (train_loop (F := toy) 2 1) (toy_run four_samples)
      (fun v r' =>
         iterations (opt r') = 2 /\
         exists h m, v = RetHistoryModel h m /\ length (h_epoch h) = 1).
Proof.
  unfold ensures. intros H. vm_compute in H.
  destruct H as (_ & h & m & Hv & _). discriminate Hv.
Qed.

(** C2: the dataset returned by [dataset.shuffle(50000)] is never used.  For
    every framework, hence whatever its shuffle computes, the batches of an
    epoch are cut from the dataset in its stored order; with a shuffle that
    reverses its input, both epochs of a run still see the first two samples
    first. *)
Theorem epoch_batches_not_shuffled :
  (forall (F : Framework) (batch_size : Z) (ds : list (Image * Label)),
     epoch_batches batch_size ds =
     match Dataset.batch batch_size true ds with
     | inl e => inl e
     | inr bs => inr (map Dataset.stack_pair bs)
     end) /\
  fst (shuffle (Framework := toy) 50000 four_samples 0) = rev four_samples /\
  epoch_batches (F := toy) 2 four_samples =
    inr [([10; 11], [0; 0]%Z); ([12; 13], [1; 1]%Z)] /\
  epoch_batches (F := toy) 2 four_samples <>
    inr (map Dataset.stack_pair
           (Dataset.chunks 2 true (fst (shuffle (Framework := toy) 50000 four_samples 0)))).
Proof.
  split; [ reflexivity | ].
  split; [ reflexivity | ].
  split; [ reflexivity | ].
  vm_compute. discriminate.
Qed.

(** C3: the forward pass of the training loop calls the model without a
    training flag, so both dropout stages are the identity there: the loss is
    computed from the very output an inference call gives and the random
    generator is not consulted.  In the small framework, whose dropout zeroes
    every feature, a training-mode call gives a different output. *)
Theorem training_forward_pass_has_no_dropout :
  (forall (F : Framework) (w : Params) (data : Tensor) (y_true : list Label) (g : Rng),
     model_call (Some false) w data g =
       (dense_7 w (dense_5 w (flatten (pool_3 (conv_2 w (conv_1 w data))))), g) /\
     model_call None w data g = model_call (Some false) w data g /\
     forward_pass w data y_true g =
       (compute_loss y_true (fst (model_call (Some false) w data g)), g)) /\
  model_call (F := toy) (Some true) 3 [[1]; [2]] 7 = ([[0; 1]; [0; 1]], 9) /\
  model_call (F := toy) None 3 [[1]; [2]] 7 = ([[1; 0]; [1; 0]], 7).
Proof.
  split; [ intros; repeat split; reflexivity | ].
  split; reflexivity.
Qed.

Lemma predict_steps_pure {F : Framework} (w : Params) (batches : list (list Image))
  (g g2 : Rng) :
  predict_steps w batches g = (fst (predict_steps w batches g2), g).
Proof.
  induction batches as [ | b rest IH ]; [reflexivity | ].
  cbn [predict_steps]. unfold model_call, call, Dropout, resolve_training.
  rewrite IH. destruct (predict_steps w rest g2) as [out g3]. reflexivity.
Qed.

(** C7: inference is a function of the parameters and the batch alone.  Two
    successive inference-mode applications to the same batch with the same
    parameters give the same output, the output does not depend on the state
    of the random generator, and the generator is left as it was; two
    successive [predict] calls on the same images return the same predictions
    and leave the parameters as they were. *)
Theorem inference_is_deterministic {F : Framework} (w : Params) (x : Tensor) (g g2 : Rng) :
  (let first := model_call (Some false) w x g in
   let second := model_call (Some false) w x (snd first) in
   fst first = fst second) /\
  fst (model_call (Some false) w x g) = fst (model_call (Some false) w x g2) /\
  fst (model_call None w x g) = fst (model_call None w x g2) /\
  snd (model_call (Some false) w x g) = g /\
  forall (m : Model) (x0 : Image) (images : list Image),
    exists p m1 m2,
      predict m (x0 :: images) g = inr (p, m1, g) /\
      predict m1 (x0 :: images) g = inr (p, m2, g) /\
      predict m (x0 :: images) g2 = inr (p, m1, g2) /\
      weights m2 = weights m.
Proof.
  repeat split; try reflexivity.
  intros m x0 images.
  assert (Hpredict : forall (m0 : Model) (g0 : Rng),
             predict m0 (x0 :: images) g0 =
             inr (fst (predict_steps (weights m0)
                         (Dataset.chunks 32 false (x0 :: images)) g2),
                  {| weights := weights m0; compiled := compiled m0;
                     test_counter := test_counter m0;
                     predict_counter :=
                       predict_counter m0 +
                       length (Dataset.chunks 32 false (x0 :: images)) |},
                  g0)).
  { intros m0 g0. unfold predict.
    rewrite (predict_steps_pure (weights m0) _ g0 g2). reflexivity. }
  do 3 eexists.
  split; [ apply Hpredict | ].
  split; [ rewrite Hpredict; reflexivity | ].
  split; [ apply Hpredict | reflexivity ].
Qed.

(** C10: [train_network_concise] never reads [_lr]: for any two learning
    rates it is the same computation, and the optimizer it compiles the model
    with is Adam at the default rate 0.001. *)
Theorem concise_training_ignores_lr {F : Framework} (_batch_size _n_training_epochs : Z)
  (lr1 lr2 : Q) (k : Kernel) :
  train_network_concise _batch_size _n_training_epochs lr1 k =
  train_network_concise _batch_size _n_training_epochs lr2 k /\
  forall m : Model,
    exists m',
      compile m "sparse_categorical_crossentropy" "adam" = inr m' /\
      option_map optimizer (compiled m') = Some (Adam adam_default_lr) /\
      weights m' = weights m.
Proof.
  split; [ reflexivity | ].
  intros m. eexists. split; [ reflexivity | ]. split; reflexivity.
Qed.

(** ** Reporting *)

Section CountingFacts.

Lemma list_sum_cons (a : nat) (l : list nat) : list_sum (a :: l) = a + list_sum l.
Proof. reflexivity. Qed.

Lemma list_sum_map_add {A} (g h : A -> nat) (l : list A) :
  list_sum (map (fun j => g j + h j) l) = list_sum (map g l) + list_sum (map h l).
Proof.
  induction l as [ | a l IH ]; [reflexivity | ].
  cbn [map]. rewrite !list_sum_cons, IH. lia.
Qed.

Lemma list_sum_map_zero {A} (l : list A) : list_sum (map (fun _ => 0) l) = 0.
Proof.
  induction l as [ | a l IH ]; [reflexivity | ].
  cbn [map]. rewrite list_sum_cons, IH. reflexivity.
Qed.

Lemma indicator_absent (a : Z) (labels : list Z) :
  ~ In a labels ->
  list_sum (map (fun j => if (a =? j)%Z then 1 else 0) labels) = 0.
Proof.
  induction labels as [ | b labels IH ]; intros Hnot; [reflexivity | ].
  cbn [map]. rewrite list_sum_cons. destruct (Z.eqb_spec a b) as [-> | _].
  - exfalso. apply Hnot. left. reflexivity.
  - apply IH. intros Hin. apply Hnot. right. exact Hin.
Qed.

Lemma indicator_present (a : Z) (labels : list Z) :
  NoDup labels -> In a labels ->
  list_sum (map (fun j => if (a =? j)%Z then 1 else 0) labels) = 1.
Proof.
  induction 1 as [ | b labels Hnot Hnodup IH ]; intros Hin; [contradiction | ].
  cbn [map]. rewrite list_sum_cons. destruct (Z.eqb_spec a b) as [-> | Hne].
  - rewrite indicator_absent by exact Hnot. reflexivity.
  - destruct Hin as [-> | Hin]; [contradiction | ]. apply IH. exact Hin.
Qed.

(** Sorting the elements of a list by a key into the classes of a
    duplicate-free list of labels that covers every key loses none. *)
Lemma partition_count {X} (key : X -> Z) (labels : list Z) (l : list X) :
  NoDup labels ->
  Forall (fun x => In (key x) labels) l ->
  list_sum (map (fun j => length (filter (fun x => (key x =? j)%Z) l)) labels) = length l.
Proof.
  intros Hnodup. induction 1 as [ | a l Ha Hl IH ].
  - cbn [filter length]. apply list_sum_map_zero.
  - rewrite (map_ext _ (fun j => (if (key a =? j)%Z then 1 else 0)
                                 + length (filter (fun x => (key x =? j)%Z) l))).
    + rewrite list_sum_map_add, IH, indicator_present by assumption. reflexivity.
    + intros j. cbn. destruct (key a =? j)%Z; reflexivity.
Qed.

Lemma filter_andb {X} (f g : X -> bool) (l : list X) :
  filter (fun x => f x && g x) l = filter g (filter f l).
Proof.
  induction l as [ | a l IH ]; [reflexivity | ].
  cbn. destruct (f a); cbn; [ destruct (g a) | ]; rewrite IH; reflexivity.
Qed.

Lemma count_true_class (i : Z) (y_true y_pred : list Z) :
  length y_true = length y_pred ->
  length (filter (fun p => (fst p =? i)%Z) (combine y_true y_pred)) =
  count_occ Z.eq_dec y_true i.
Proof.
  revert y_pred. induction y_true as [ | y ys IH ]; intros [ | p ps ] Hlen;
    try discriminate; [reflexivity | ].
  cbn. destruct (Z.eqb_spec y i) as [-> | Hne].
  - destruct (Z.eq_dec i i) as [_ | Hn]; [ | contradiction ].
    cbn. rewrite IH by (cbn in Hlen; lia). reflexivity.
  - destruct (Z.eq_dec y i) as [-> | _]; [ contradiction | ].
    apply IH. cbn in Hlen. lia.
Qed.

(** Row sums and total of the table of counts behind a confusion matrix. *)
Lemma row_sum (labels : list Z) (i : Z) (y_true y_pred : list Z) :
  NoDup labels ->
  length y_true = length y_pred ->
  Forall (fun c => In c labels) y_pred ->
  list_sum (map (fun j => Metrics.count_pair i j (combine y_true y_pred)) labels) =
  count_occ Z.eq_dec y_true i.
Proof.
  intros Hnodup Hlen Hpred.
  rewrite <- (count_true_class i y_true y_pred Hlen).
  rewrite <- (partition_count snd
                (l := filter (fun p => (fst p =? i)%Z) (combine y_true y_pred)) Hnodup).
  - apply f_equal, map_ext. intros j. unfold Metrics.count_pair.
    rewrite filter_andb. reflexivity.
  - apply Forall_forall. intros [y c] Hin. apply filter_In in Hin. destruct Hin as [Hin _].
    apply in_combine_r in Hin. cbn. rewrite Forall_forall in Hpred. apply Hpred. exact Hin.
Qed.

Lemma table_total (labels : list Z) (y_true y_pred : list Z) :
  NoDup labels ->
  length y_true = length y_pred ->
  Forall (fun y => In y labels) y_true ->
  Forall (fun c => In c labels) y_pred ->
  list_sum (map (@list_sum)
              (map (fun i => map (fun j => Metrics.count_pair i j (combine y_true y_pred))
                                 labels) labels)) = length y_true.
Proof.
  intros Hnodup Hlen Htrue Hpred.
  rewrite map_map.
  rewrite (map_ext _ (fun i => length (filter (fun p => (fst p =? i)%Z)
                                         (combine y_true y_pred)))).
  - rewrite (partition_count fst (l := combine y_true y_pred) Hnodup).
    + rewrite length_combine. lia.
    + apply Forall_forall. intros [y c] Hin. apply in_combine_l in Hin.
      cbn. rewrite Forall_forall in Htrue. apply Htrue. exact Hin.
  - intros i. rewrite row_sum by assumption. symmetry. apply count_true_class. exact Hlen.
Qed.

Lemma map_result_ok {A B} (f : A -> Result B) (P : B -> Prop) (l : list A) :
  Forall (fun x => exists y, f x = inr y /\ P y) l ->
  exists ys, map_result f l = inr ys /\ length ys = length l /\ Forall P ys.
Proof.
  induction 1 as [ | x l (y & Hy & HP) _ (ys & Hys & Hlen & HPs) ].
  - exists []. repeat split. constructor.
  - exists (y :: ys). cbn. rewrite Hy, Hys. repeat split.
    + cbn. rewrite Hlen. reflexivity.
    + constructor; assumption.
Qed.

End CountingFacts.

Lemma labels10_nodup : NoDup Metrics.labels10.
Proof.
  unfold Metrics.labels10.
  repeat (constructor; [ cbn; intuition discriminate | ]). constructor.
Qed.

Lemma labels10_in (y : Z) : (0 <= y < 10)%Z -> In y Metrics.labels10.
Proof.
  intros H. unfold Metrics.labels10. cbn.
  assert (y = 0 \/ y = 1 \/ y = 2 \/ y = 3 \/ y = 4 \/ y = 5 \/ y = 6 \/ y = 7
          \/ y = 8 \/ y = 9)%Z as Hy by lia.
  intuition auto.
Qed.

Lemma labels10_mem (y : Z) : (0 <= y < 10)%Z -> Metrics.mem y Metrics.labels10 = true.
Proof.
  intros H. unfold Metrics.mem. apply existsb_exists.
  exists y. split; [ apply labels10_in; exact H | apply Z.eqb_refl ].
Qed.

Section ArgmaxFacts.
Context {F : Framework}.

Lemma argmax_from_bound (row : list Scalar) :
  forall (best : Scalar) (best_i i : nat),
    best_i < i -> argmax_from best best_i i row < i + length row.
Proof.
  induction row as [ | x row IH ]; intros best best_i i Hlt; cbn [argmax_from length].
  - lia.
  - destruct (gtb x best).
    + specialize (IH x i (S i)). lia.
    + specialize (IH best best_i (S i)). lia.
Qed.

Lemma argmax_row_range (row : list Scalar) :
  length row = 10 ->
  exists c, argmax_row row = inr c /\ (0 <= c < 10)%Z.
Proof.
  destruct row as [ | x row ]; intros Hlen; [discriminate | ].
  eexists. split; [reflexivity | ].
  pose proof (argmax_from_bound row x (best_i := 0) (i := 1)) as Hb.
  cbn in Hlen. lia.
Qed.

End ArgmaxFacts.

(** C5: for a test partition whose labels lie in 0..9 and predictions with
    one row of ten scores per sample, the confusion-matrix cell's expression
    succeeds and yields a 10x10 matrix whose entries sum to the number of test
    samples and whose row i sums to the number of samples of true class i. *)
Theorem confusion_matrix_sums {F : Framework} (y_test : list Label)
  (predictions : list (list Scalar)) :
  length predictions = length y_test ->
  Forall (fun y => (0 <= y < 10)%Z) y_test ->
  Forall (fun row => length row = 10) predictions ->
  exists classes cm,
    argmax_axis1 predictions = inr classes /\
    Metrics.confusion_matrix y_test classes Metrics.labels10 = inr cm /\
    length cm = 10 /\
    Forall (fun row => length row = 10) cm /\
    list_sum (map (@list_sum) cm) = length y_test /\
    forall i, i < 10 ->
      list_sum (nth i cm []) = count_occ Z.eq_dec y_test (Z.of_nat i).
Proof.
  intros Hlen Htrue Hrows.
  destruct (map_result_ok argmax_row (fun c => In c Metrics.labels10) (l := predictions))
    as (classes & Hclasses & Hclen & Hcin).
  { eapply Forall_impl; [ | exact Hrows ]. intros row Hrow.
    destruct (argmax_row_range row Hrow) as (c & Hc & Hrange).
    exists c. split; [ exact Hc | apply labels10_in; exact Hrange ]. }
  assert (Hlen' : length y_test = length classes) by lia.
  assert (Htrue' : Forall (fun y => In y Metrics.labels10) y_test).
  { eapply Forall_impl; [ | exact Htrue ]. intros y. apply labels10_in. }
  set (table := map (fun i => map (fun j => Metrics.count_pair i j (combine y_test classes))
                                  Metrics.labels10) Metrics.labels10).
  assert (Hcm : Metrics.confusion_matrix y_test classes Metrics.labels10 = inr table).
  { unfold Metrics.confusion_matrix.
    assert (E : (@length Z y_test =? @length Z classes) = true)
      by (apply Nat.eqb_eq; exact Hlen').
    rewrite E. cbn [negb].
    destruct y_test as [ | y ys ].
    - reflexivity.
    - cbn [existsb]. rewrite labels10_mem by (inversion Htrue; assumption).
      reflexivity. }
  exists classes, table. split; [ exact Hclasses | ]. split; [ exact Hcm | ].
  split; [ reflexivity | ].
  split; [ repeat constructor | ].
  split; [ apply table_total; auto using labels10_nodup | ].
  intros i Hi.
  assert (Hrow : nth i table [] =
                 map (fun j => Metrics.count_pair (Z.of_nat i) j (combine y_test classes))
                     Metrics.labels10).
  { do 10 (destruct i as [ | i ]; [ reflexivity | ]). lia. }
  rewrite Hrow. apply row_sum; auto using labels10_nodup.
Qed.

Lemma confusion_matrix_sums_witness :
  exists classes cm,
    argmax_axis1 (F := toy) [[0; 5; 0; 0; 0; 0; 0; 0; 0; 0]; [9; 1; 0; 0; 0; 0; 0; 0; 0; 0]]
      = inr classes /\
    Metrics.confusion_matrix [1; 1]%Z classes Metrics.labels10 = inr cm /\
    list_sum (map (@list_sum) cm) = 2 /\
    list_sum (nth 1 cm []) = 2.
Proof.
  destruct (@confusion_matrix_sums toy [1; 1]%Z
              [[0; 5; 0; 0; 0; 0; 0; 0; 0; 0]; [9; 1; 0; 0; 0; 0; 0; 0; 0; 0]])
    as (classes & cm & Hc & Hcm & _ & _ & Htotal & Hrow).
  - reflexivity.
  - repeat constructor; lia.
  - repeat constructor.
  - exists classes, cm. split; [ exact Hc | ]. split; [ exact Hcm | ].
    split; [ exact Htotal | ]. apply (Hrow 1). lia.
Defined.

(** ** Per-class accuracy *)

Lemma diagonal_le_row_sum (row : list nat) :
  forall i, nth i row 0 <= list_sum row.
Proof.
  induction row as [ | a row IH ]; intros [ | i ]; cbn [nth]; rewrite ?list_sum_cons;
    try (cbn; lia).
  specialize (IH i). lia.
Qed.

Lemma per_class_accuracy_at (cm : list (list nat)) :
  forall (s i : nat) (row : list nat),
    nth_error cm i = Some row ->
    nth_error
      (map (fun '(d, t) => Metrics.true_divide d t)
         (combine (map (fun '(k, r) => nth k r 0) (combine (seq s (length cm)) cm))
                  (map (@list_sum) cm))) i =
    Some (Metrics.true_divide (nth (s + i) row 0) (list_sum row)).
Proof.
  induction cm as [ | r cm IH ]; intros s [ | i ] row Hnth; try discriminate.
  - cbn in Hnth. injection Hnth as ->. cbn. rewrite Nat.add_0_r. reflexivity.
  - cbn in Hnth. cbn [length seq combine map nth_error].
    rewrite (IH (S s) i row Hnth). rewrite Nat.add_succ_r. reflexivity.
Qed.

Lemma true_divide_range (d t : nat) :
  d <= t ->
  (t = 0 -> Metrics.true_divide d t = Metrics.NaN) /\
  (t <> 0 -> exists q, Metrics.true_divide d t = Metrics.Finite q /\ (0 <= q <= 1)%Q).
Proof.
  intros Hle. split.
  - intros ->. replace d with 0 by lia. reflexivity.
  - intros Hne. destruct t as [ | t ]; [contradiction | ].
    eexists. split; [reflexivity | ].
    unfold Qle. cbn [Qnum Qden].
    rewrite <- Pos.of_nat_succ, Zpos_P_of_succ_nat. lia.
Qed.

(** C6 (as amended): the per-class accuracy computation raises nothing and
    returns one value per row of the matrix; for a class whose row sum is not
    zero the value is the quotient of the diagonal entry by the row sum and
    lies in [0, 1]; for a class whose row sums to zero the value is NaN. *)
Theorem per_class_accuracy_range (cm : list (list nat)) (i : nat) (row : list nat) :
  nth_error cm i = Some row ->
  length (Metrics.per_class_accuracy cm) = length cm /\
  (list_sum row = 0 ->
   nth_error (Metrics.per_class_accuracy cm) i = Some Metrics.NaN) /\
  (list_sum row <> 0 ->
   exists q,
     nth_error (Metrics.per_class_accuracy cm) i = Some (Metrics.Finite q) /\
     (0 <= q <= 1)%Q).
Proof.
  intros Hnth.
  split.
  { unfold Metrics.per_class_accuracy, Metrics.diagonal, Metrics.sum_axis1.
    rewrite length_map, length_combine, !length_map, length_combine, length_seq. lia. }
  pose proof (per_class_accuracy_at cm 0 i Hnth) as Hat.
  fold (Metrics.diagonal cm) in Hat. fold (Metrics.sum_axis1 cm) in Hat.
  fold (Metrics.per_class_accuracy cm) in Hat. cbn [Nat.add] in Hat.
  destruct (true_divide_range (diagonal_le_row_sum row i)) as [Hzero Hpos].
  split.
  - intros Hsum. rewrite Hat, (Hzero Hsum). reflexivity.
  - intros Hsum. destruct (Hpos Hsum) as (q & Hq & Hrange).
    exists q. rewrite Hat, Hq. split; [reflexivity | exact Hrange].
Qed.

Lemma per_class_accuracy_range_witness :
  nth_error (Metrics.per_class_accuracy [[3; 1]; [0; 0]]) 1 = Some Metrics.NaN /\
  exists q,
    nth_error (Metrics.per_class_accuracy [[3; 1]; [0; 0]]) 0 = Some (Metrics.Finite q) /\
    (0 <= q <= 1)%Q.
Proof.
  split.
  - apply (per_class_accuracy_range [[3; 1]; [0; 0]] 1 (row := [0; 0]) eq_refl).
    reflexivity.
  - apply (per_class_accuracy_range [[3; 1]; [0; 0]] 0 (row := [3; 1]) eq_refl).
    cbn. lia.
Defined.

(** The claim C6 as stated fails: for a test partition with the single
    sample of class 0, predicted as class 0, class 1 has an empty row and its
    reported accuracy is not a number in [0, 1]. *)
Lemma per_class_accuracy_of_absent_class :
  ~ (forall cm,
       Metrics.confusion_matrix [0]%Z [0]%Z Metrics.labels10 = inr cm ->
       exists q,
         nth_error (Metrics.per_class_accuracy cm) 1 = Some (Metrics.Finite q) /\
         (0 <= q <= 1)%Q).
Proof.
  intros H. destruct (H _ eq_refl) as (q & Hq & _).
  vm_compute in Hq. discriminate Hq.
Qed.

(** ** Evaluation and reporting leave the model and the data alone *)

Section Holds.
Context {S : Type}.

Lemma holds_mono {A} (m : M S A) s (P Q : A -> S -> Prop) :
  holds m s P -> (forall a s', P a s' -> Q a s') -> holds m s Q.
Proof.
  unfold holds. destruct (m s) as [e | [a s']]; [trivial | ].
  intros H HPQ. apply HPQ. exact H.
Qed.

Lemma holds_ret {A} (a : A) s (Q : A -> S -> Prop) : Q a s -> holds (ret a) s Q.
Proof. intros H. exact H. Qed.

Lemma holds_raise {A} e s (Q : A -> S -> Prop) : holds (raise e) s Q.
Proof. exact I. Qed.

Lemma holds_bind {A B} (m : M S A) (k : A -> M S B) s (Q : B -> S -> Prop) :
  holds m s (fun a s' => holds (k a) s' Q) -> holds (bind m k) s Q.
Proof.
  unfold holds, bind. destruct (m s) as [e | [a s']]; [trivial | ].
  intros H. exact H.
Qed.

Lemma holds_get s (Q : S -> S -> Prop) : Q s s -> holds get s Q.
Proof. intros H. exact H. Qed.

Lemma holds_modify (f : S -> S) s (Q : unit -> S -> Prop) :
  Q tt (f s) -> holds (modify f) s Q.
Proof. intros H. exact H. Qed.

Lemma holds_lift {A} (r : Result A) s (Q : A -> S -> Prop) :
  (forall a, r = inr a -> Q a s) -> holds (lift r) s Q.
Proof.
  unfold holds, lift. destruct r as [e | a]; [trivial | ].
  intros H. apply H. reflexivity.
Qed.

Lemma holds_for_each {A} (I : S -> Prop) (body : A -> M S unit) (l : list A) :
  (forall x s, I s -> holds (body x) s (fun _ s' => I s')) ->
  forall s, I s -> holds (for_each l body) s (fun _ s' => I s').
Proof.
  intros Hbody. induction l as [ | x l IH ]; intros s HI.
  - apply holds_ret. exact HI.
  - cbn [for_each]. apply holds_bind.
    eapply holds_mono; [ apply (Hbody x s HI) | ].
    intros u s' HI'. apply IH. exact HI'.
Qed.

End Holds.

Section ReportingFrame.
Context {F : Framework}.

(** [evaluate] and [predict] only count their steps on the model object. *)
Lemma evaluate_keeps_weights (m : Model) x y g s steps m' g' :
  evaluate m x y g = inr (s, steps, m', g') ->
  weights m' = weights m /\ compiled m' = compiled m.
Proof.
  unfold evaluate. destruct (compiled m) as [c | ] eqn:Hc; [ | discriminate ].
  destruct (negb _); [discriminate | ].
  destruct x as [ | x0 x ]; [discriminate | ].
  destruct (test_steps _ _ _) as [e | [[losses matches] g1]]; [discriminate | ].
  intros H. injection H as _ _ <- _. cbn. split; reflexivity.
Qed.

Lemma predict_keeps_weights (m : Model) x g p m' g' :
  predict m x g = inr (p, m', g') ->
  weights m' = weights m /\ compiled m' = compiled m.
Proof.
  unfold predict. destruct x as [ | x0 x ]; [discriminate | ].
  destruct (predict_steps _ _ _) as [out g1].
  intros H. injection H as _ <- _. cbn. split; reflexivity.
Qed.

Lemma same_model_and_data_refl (k : Kernel) : same_model_and_data k k.
Proof. unfold same_model_and_data. repeat split; reflexivity. Qed.

Lemma plot_frame (t : string) px py (k0 k : Kernel) :
  same_model_and_data k0 k ->
  holds (plot t px py) k (fun _ k' => same_model_and_data k0 k').
Proof.
  intros H. unfold plot. destruct (negb _); [ apply holds_raise | ].
  apply holds_modify. exact H.
Qed.

Lemma k_print_frame (l : Line) (k0 k : Kernel) :
  same_model_and_data k0 k ->
  holds (k_print l) k (fun _ k' => same_model_and_data k0 k').
Proof. intros H. apply holds_modify. exact H. Qed.

Lemma plot_cell_frame (k : Kernel) :
  holds plot_cell k (fun _ k' => same_model_and_data k k').
Proof.
  unfold plot_cell, global.
  apply holds_bind, holds_bind, holds_get.
  destruct (history k) as [h | ]; [ apply holds_ret | apply holds_raise ].
  apply holds_bind.
  eapply holds_mono; [ apply plot_frame, same_model_and_data_refl | ].
  intros u k1 H1. apply plot_frame. exact H1.
Qed.

Lemma evaluate_cell_frame (k : Kernel) :
  holds evaluate_cell k (fun _ k' => same_model_and_data k k').
Proof.
  unfold evaluate_cell, global.
  apply holds_bind, holds_get.
  apply holds_bind, holds_modify.
  apply holds_bind, holds_bind, holds_get. cbn [cnn_model set_x_test_reshaped].
  destruct (cnn_model k) as [m | ] eqn:Hm; [ apply holds_ret | apply holds_raise ].
  apply holds_bind, holds_get.
  apply holds_bind, holds_lift. intros [[[s steps] m'] g'] Hev.
  apply evaluate_keeps_weights in Hev. destruct Hev as [Hw Hc].
  apply holds_bind, holds_modify.
  apply holds_bind, holds_modify.
  apply holds_bind, holds_modify.
  apply holds_bind, holds_modify.
  match goal with |- holds _ ?k1 _ =>
    assert (Hsame : same_model_and_data k k1)
  end.
  { unfold same_model_and_data. cbn. rewrite Hm. cbn.
    rewrite Hw, Hc. repeat split; reflexivity. }
  apply holds_bind, holds_bind, holds_get.
  cbn [cnn_model set_scores set_proc set_cnn_model].
  apply holds_ret.
  destruct (compiled m') as [c | ]; [ | apply holds_raise ].
  destruct (nth_error (metrics_names c) 1) as [name | ]; [ | apply holds_raise ].
  destruct (nth_error s 1) as [score | ]; [ | apply holds_raise ].
  apply k_print_frame. exact Hsame.
Qed.

Lemma confusion_cell_frame (k : Kernel) :
  holds confusion_cell k (fun _ k' => same_model_and_data k k').
Proof.
  unfold confusion_cell, global.
  apply holds_bind, holds_modify.
  apply holds_bind, holds_modify.
  apply holds_bind, holds_bind, holds_get. cbn.
  destruct (cnn_model k) as [m | ] eqn:Hm; [ apply holds_ret | apply holds_raise ].
  apply holds_bind, holds_get.
  apply holds_bind, holds_lift. intros [[p m'] g'] Hp.
  apply predict_keeps_weights in Hp. destruct Hp as [Hw Hc].
  apply holds_bind, holds_modify.
  apply holds_bind, holds_modify.
  apply holds_bind, holds_modify.
  apply holds_bind, holds_lift. intros classes _.
  apply holds_bind, holds_get.
  apply holds_bind, holds_lift. intros c _.
  apply holds_bind, holds_modify.
  match goal with |- holds _ ?k1 _ =>
    assert (Hsame : same_model_and_data k k1)
  end.
  { unfold same_model_and_data. cbn. rewrite Hm. cbn.
    rewrite Hw, Hc. repeat split; reflexivity. }
  apply holds_bind.
  eapply holds_mono; [ apply k_print_frame, Hsame | ]. intros u1 k1 H1.
  apply holds_bind.
  eapply holds_mono; [ apply k_print_frame, H1 | ]. intros u2 k2 H2.
  apply holds_bind.
  eapply holds_mono; [ apply k_print_frame, H2 | ]. intros u3 k3 H3.
  apply holds_bind.
  eapply holds_mono; [ apply k_print_frame, H3 | ]. intros u4 k4 H4.
  apply (holds_for_each (fun s => same_model_and_data k s)); [ | exact H4 ].
  intros [i j] s Hs. apply k_print_frame. exact Hs.
Qed.

End ReportingFrame.

(** C9: whenever the plotting cell, the test-accuracy cell or the
    confusion-matrix cell (prediction, confusion matrix, per-class accuracy)
    runs to completion, the four dataset arrays, the [dataset] object, the
    model's parameters and compiled optimizer and the training history are the
    same after the cell as before it. *)
Theorem reporting_keeps_model_and_data {F : Framework} (cell : M Kernel unit)
  (k k' : Kernel) :
  cell = plot_cell \/ cell = evaluate_cell \/ cell = confusion_cell ->
  cell k = inr (tt, k') ->
  same_model_and_data k k'.
Proof.
  intros [-> | [-> | ->]] Hrun.
  - pose proof (plot_cell_frame k) as H. unfold holds in H. rewrite Hrun in H. exact H.
  - pose proof (evaluate_cell_frame k) as H. unfold holds in H. rewrite Hrun in H. exact H.
  - pose proof (confusion_cell_frame k) as H. unfold holds in H. rewrite Hrun in H. exact H.
Qed.

Lemma reporting_keeps_model_and_data_witness :
  exists k1 k2,
    evaluate_cell (F := toy) toy_trained_kernel = inr (tt, k1) /\
    confusion_cell (F := toy) k1 = inr (tt, k2) /\
    same_model_and_data toy_trained_kernel k1 /\
    same_model_and_data k1 k2.
Proof.
  eexists. eexists.
  split; [ vm_compute; reflexivity | ].
  split; [ vm_compute; reflexivity | ].
  split.
  - apply (reporting_keeps_model_and_data (cell := evaluate_cell));
      [ right; left; reflexivity | vm_compute; reflexivity ].
  - apply (reporting_keeps_model_and_data (cell := confusion_cell));
      [ right; right; reflexivity | vm_compute; reflexivity ].
Defined.

(** * Further properties of the notebook's code *)

(** ** Edge cases of the manual training loop *)

Section TrainLoopEdges.
Context {F : Framework}.

Lemma range_positive (n : Z) :
  (0 < n)%Z -> exists rest, range n = 0%Z :: rest.
Proof.
  intros H. unfold range.
  destruct (Z.to_nat n) as [ | k ] eqn:Hk; [lia | ].
  cbn. eexists. reflexivity.
Qed.


End TrainLoopEdges.


Section TrainLoopGlobals.
Context {F : Framework}.

Lemma bind_step {S A B} (m : M S A) (k : A -> M S B) s a s' :
  m s = inr (a, s') -> bind m k s = k a s'.
Proof. unfold bind. intros ->. reflexivity. Qed.

Lemma bind_raises {S A B} (m : M S A) (k : A -> M S B) s e :
  m s = inl e -> bind m k s = inl e.
Proof. unfold bind. intros ->. reflexivity. Qed.

(** X2: the loop reads the notebook global [dataset].  With a non-zero batch
    size and at least one epoch, running it while that global is unbound
    raises NameError, after the first progress line and before any training
    step. *)
Theorem train_loop_unbound_dataset (batch_size n_training_epochs : Z) (r : Run) :
  (0 < n_training_epochs)%Z ->
  batch_size <> 0%Z ->
  dataset r = None ->
  train_loop batch_size n_training_epochs r = inl NameError.
Proof.
  intros HE HB Hds.
  destruct (range_positive HE) as (rest & Hrange).
  unfold train_loop. rewrite Hrange. cbn [for_each].
  apply bind_raises, bind_raises. unfold epoch.
  erewrite bind_step by reflexivity.
  erewrite bind_step by reflexivity.
  erewrite bind_step
    by (unfold epoch_steps_of; destruct (Z.eqb_spec batch_size 0);
        [ contradiction | reflexivity ]).
  apply bind_raises. unfold read_dataset.
  erewrite bind_step by reflexivity. cbn [dataset]. rewrite Hds. reflexivity.
Qed.

(** X3: with a number of epochs that is zero or negative the loop body never
    runs: the call returns None and changes nothing, whatever the batch size
    (zero included) and whether or not [dataset] is bound. *)
Theorem train_loop_no_epochs (batch_size n_training_epochs : Z) (r : Run) :
  (n_training_epochs <= 0)%Z ->
  train_loop batch_size n_training_epochs r = inr (RetNone, r).
Proof.
  intros HE. unfold train_loop, range.
  replace (Z.to_nat n_training_epochs) with 0 by lia. reflexivity.
Qed.

End TrainLoopGlobals.

Lemma train_loop_unbound_dataset_witness :
  train_loop (F := toy) 2 1 (@Build_Run toy (@CIFAR10Classifier toy)
                               (@Adam toy (1 # 100)%Q) None toy_process)
  = inl NameError.
Proof.
  apply (@train_loop_unbound_dataset toy 2 1); [ lia | lia | reflexivity ].
Defined.

Lemma train_loop_no_epochs_witness :
  train_loop (F := toy) 0 0 (toy_run four_samples) = inr (RetNone, toy_run four_samples).
Proof.
  apply (@train_loop_no_epochs toy 0 0 (toy_run four_samples)). lia.
Defined.

(** X4: what a run of the manual loop does besides training.  With a positive
    batch size that the batching takes and [dataset] bound, a run of E epochs
    returns None, prints for each epoch 0..E-1 in order its "beginning" line
    and its "took" line (the difference of the two clock readings taken
    around the epoch), reads the clock 2E times, performs E * floor(size / B)
    optimizer steps at an unchanged learning rate, opens no figure and leaves
    [dataset] bound to the same dataset.  The random generator is consulted
    only to build a model that has never been called, at the first training
    step: it is untouched when the model was built before or when no step
    runs, and otherwise it has served the initializers once and the model is
    built afterwards. *)
Theorem train_loop_observable_effect {F : Framework} (batch_size n_training_epochs : Z)
  (ds : list (Image * Label)) (r : Run) :
  (0 < batch_size <= Dataset.batch_limit)%Z ->
  dataset r = Some ds ->
  ensures (train_loop batch_size n_training_epochs) r
    (fun v r' =>
       v = RetNone /\
       stdout (proc r') =
         stdout (proc r) ++ epoch_lines (ticks (proc r)) (range n_training_epochs) /\
       ticks (proc r') = ticks (proc r) + 2 * Z.to_nat n_training_epochs /\
       iterations (opt r') =
         iterations (opt r) + Z.to_nat n_training_epochs * (length ds / Z.to_nat batch_size) /\
       learning_rate (opt r') = learning_rate (opt r) /\
       (model r <> None \/
        Z.to_nat n_training_epochs * (length ds / Z.to_nat batch_size) = 0 ->
        rng (proc r') = rng (proc r)) /\
       (model r = None ->
        Z.to_nat n_training_epochs * (length ds / Z.to_nat batch_size) <> 0 ->
        model r' <> None /\ rng (proc r') = snd (init_weights (rng (proc r)))) /\
       figures (proc r') = figures (proc r) /\
       dataset r' = Some ds).
Proof.
  intros Hpos Hds.
  eapply ensures_mono.
  { apply ensures_conj.
    - apply (train_loop_trained n_training_epochs r Hpos Hds).
    - apply (train_loop_effect n_training_epochs r Hpos Hds). }
  intros v r' [[Hv (_ & _ & _ & _ & Hds' & _ & Htk & Hout & Hfig & Hzero & Hbuilt)]
                 [_ (Hit & Hlr & _)]].
  cbn beta in *.
  destruct (Z.to_nat batch_size) as [ | b ] eqn:Hb; [lia | ].
  rewrite chunks_drop_length in Hit, Hzero, Hbuilt.
  split; [ exact Hv | ]. split; [ exact Hout | ]. split; [ exact Htk | ].
  split; [ exact Hit | ]. split; [ exact Hlr | ].
  split; [ | split; [ | split; [ exact Hfig | congruence ] ] ].
  - intros Hcase.
    destruct (Nat.eq_dec (Z.to_nat n_training_epochs * (length ds / S b)) 0) as [Hn | Hn].
    + apply Hzero. exact Hn.
    + destruct Hcase as [Hm | Hcase]; [ | contradiction ].
      destruct (Hbuilt Hn) as [_ ->]. unfold built_rng.
      destruct (model r) as [m | ]; [ reflexivity | contradiction ].
  - intros Hm Hn. destruct (Hbuilt Hn) as [-> ->]. split; [ discriminate | ].
    unfold built_rng. rewrite Hm. cbn [build].
    destruct (init_weights (rng (proc r))) as [w g]. reflexivity.
Qed.

Lemma train_loop_observable_effect_witness :
  ensures (train_loop (F := toy) 3 2) (toy_run (four_samples ++ [(14, 1%Z)]))
    (fun v r' =>
       stdout (proc r') =
         [BeginningEpoch 0; TookSeconds 1 0; BeginningEpoch 1; TookSeconds 1 1] /\
       iterations (opt r') = 2 /\ rng (proc r') = 1).
Proof.
  eapply ensures_mono.
  { apply (@train_loop_observable_effect toy 3 2 (four_samples ++ [(14, 1%Z)])
             (toy_run (four_samples ++ [(14, 1%Z)])));
      [ split; [ lia | vm_compute; discriminate ] | reflexivity ]. }
  intros v r' (_ & Hout & _ & Hit & _ & _ & Hrng & _).
  split; [ exact Hout | ]. split; [ exact Hit | ].
  apply Hrng; [ reflexivity | discriminate ].
Defined.

(** X5: what a run of the manual loop learns.  With a positive batch size
    that the batching takes and [dataset] bound, the parameters and optimizer
    state after E epochs are those obtained by repeating E times one and the
    same pass: one optimizer step per full batch of the dataset in its stored
    order, each step taken along the gradient of the loss of the
    deterministic layers' output (no feature deactivated).  The pass starts
    from the parameters the model has, or, for a model never called before,
    from those its initializers draw at the first step; the generator enters
    the result in no other way.  The model's compile state and step counters
    are as before; the model object is built once a step has run and is the
    very same otherwise. *)
Theorem train_loop_closed_form {F : Framework} (batch_size n_training_epochs : Z)
  (ds : list (Image * Label)) (r : Run) :
  (0 < batch_size <= Dataset.batch_limit)%Z ->
  dataset r = Some ds ->
  ensures (train_loop batch_size n_training_epochs) r
    (fun _ r' =>
       (weights (built_model r'), opt r') =
         Nat.iter (Z.to_nat n_training_epochs)
           (one_pass (map Dataset.stack_pair
                        (Dataset.chunks (Z.to_nat batch_size) true ds)))
           (weights (built_model r), opt r) /\
       compiled (built_model r') = compiled (built_model r) /\
       test_counter (built_model r') = test_counter (built_model r) /\
       predict_counter (built_model r') = predict_counter (built_model r) /\
       (Z.to_nat n_training_epochs * (length ds / Z.to_nat batch_size) = 0 ->
        model r' = model r) /\
       (Z.to_nat n_training_epochs * (length ds / Z.to_nat batch_size) <> 0 ->
        model r' = Some (built_model r'))).
Proof.
  intros Hpos Hds.
  eapply ensures_mono; [ apply (train_loop_trained n_training_epochs r Hpos Hds) | ].
  intros v r' [_ (Hst & Hc & Htc & Hpc & _ & _ & _ & _ & _ & Hzero & Hbuilt)]. cbn beta.
  destruct (Z.to_nat batch_size) as [ | b ] eqn:Hb; [lia | ].
  rewrite chunks_drop_length in Hzero, Hbuilt.
  split; [ exact Hst | ]. split; [ exact Hc | ]. split; [ exact Htc | ].
  split; [ exact Hpc | ].
  split; intros Hn; [ apply (Hzero Hn) | apply (Hbuilt Hn) ].
Qed.

Lemma train_loop_closed_form_witness :
  ensures (train_loop (F := toy) 2 2) (toy_run four_samples)
    (fun _ r' =>
       (weights (built_model r'), opt r') =
       one_pass (F := toy) [([10; 11], [0; 0]%Z); ([12; 13], [1; 1]%Z)]
         (one_pass (F := toy) [([10; 11], [0; 0]%Z); ([12; 13], [1; 1]%Z)]
            (fst (init_weights (Framework := toy) 0), opt (toy_run four_samples))) /\
       model r' = Some (built_model r')).
Proof.
  eapply ensures_mono.
  { apply (@train_loop_closed_form toy 2 2 four_samples (toy_run four_samples));
      [ split; [ lia | vm_compute; discriminate ] | reflexivity ]. }
  intros v r' (Hst & _ & _ & _ & _ & Hbuilt).
  split; [ exact Hst | apply Hbuilt; discriminate ].
Defined.

(** ** The hard-coded dataset size *)

(** X6: for a positive batch size that the batching takes,
    [epoch_steps = int(50000/batch_size)] is the number of batches the
    epoch really iterates over exactly when the dataset size and 50000 give
    the same quotient by the batch size; in particular when [dataset] holds
    50000 samples, as CIFAR-10's training partition does. *)
Theorem epoch_steps_matches_batches {F : Framework} (batch_size : Z)
  (ds : list (Image * Label)) :
  (0 < batch_size <= Dataset.batch_limit)%Z ->
  exists steps batches,
    epoch_steps_of batch_size = inr steps /\
    epoch_batches batch_size ds = inr batches /\
    steps = (50000 / batch_size)%Z /\
    Z.of_nat (length batches) = (Z.of_nat (length ds) / batch_size)%Z /\
    (Z.of_nat (length ds) = 50000%Z -> steps = Z.of_nat (length batches)).
Proof.
  intros Hpos.
  exists (Z.quot 50000 batch_size),
         (map Dataset.stack_pair (Dataset.chunks (Z.to_nat batch_size) true ds)).
  assert (Hquot : Z.quot 50000 batch_size = (50000 / batch_size)%Z)
    by (apply Z.quot_div_nonneg; lia).
  assert (Hlen : Z.of_nat (length (map Dataset.stack_pair
                                     (Dataset.chunks (Z.to_nat batch_size) true ds))) =
                 (Z.of_nat (length ds) / batch_size)%Z).
  { destruct (Z.to_nat batch_size) as [ | b ] eqn:Hb; [lia | ].
    rewrite length_map, chunks_drop_length, Nat2Z.inj_div. f_equal. lia. }
  split.
  { unfold epoch_steps_of. destruct (Z.eqb_spec batch_size 0); [lia | reflexivity]. }
  split; [ apply epoch_batches_positive; exact Hpos | ].
  split; [ exact Hquot | ].
  split; [ exact Hlen | ].
  intros H50. rewrite Hquot, Hlen, H50. reflexivity.
Qed.

Lemma epoch_steps_matches_batches_witness :
  exists steps batches,
    epoch_steps_of 20000 = inr steps /\
    epoch_batches (F := toy) 20000 four_samples = inr batches /\
    steps = 2%Z /\ Z.of_nat (length batches) = 0%Z.
Proof.
  destruct (@epoch_steps_matches_batches toy 20000 four_samples)
    as (steps & batches & Hs & Hb & Hsteps & Hlen & _);
    [ split; [ lia | vm_compute; discriminate ] | ].
  exists steps, batches.
  split; [ exact Hs | ]. split; [ exact Hb | ]. split; [ exact Hsteps | exact Hlen ].
Defined.

(** ** What the manual path leaves in the notebook *)

Section ManualPath.
Context {F : Framework}.

Lemma train_network_frame (_batch_size _n_training_epochs : Z) (_lr : Q)
  (ds : list (Image * Label)) (k : Kernel) :
  (0 < _batch_size <= Dataset.batch_limit)%Z ->
  k_dataset k = Some ds ->
  ensures (train_network _batch_size _n_training_epochs _lr) k
    (fun v k' =>
       v = RetNone /\
       data k' = data k /\ k_dataset k' = k_dataset k /\
       cnn_model k' = cnn_model k /\ history k' = history k /\
       x_test_reshaped k' = x_test_reshaped k /\ scores k' = scores k /\
       predictions k' = predictions k /\ cm k' = cm k /\
       stdout (k_proc k') =
         stdout (k_proc k) ++ epoch_lines (ticks (k_proc k)) (range _n_training_epochs) /\
       (Z.to_nat _n_training_epochs * (length ds / Z.to_nat _batch_size) = 0 ->
        rng (k_proc k') = rng (k_proc k)) /\
       (Z.to_nat _n_training_epochs * (length ds / Z.to_nat _batch_size) <> 0 ->
        rng (k_proc k') = snd (init_weights (rng (k_proc k))))).
Proof.
  intros Hpos Hk. unfold ensures, train_network, CIFAR10Classifier.
  match goal with |- context [train_loop _ _ ?r0] =>
    pose proof (train_loop_trained _n_training_epochs r0 (ds := ds) Hpos Hk) as Hrun
  end.
  apply ensures_elim in Hrun.
  destruct Hrun as (v & r' & Hrun & Hv &
                    (_ & _ & _ & _ & _ & _ & _ & Hout & _ & Hzero & Hbuilt)).
  rewrite Hrun.
  destruct (Z.to_nat _batch_size) as [ | b ] eqn:Hb; [lia | ].
  rewrite chunks_drop_length in Hzero, Hbuilt.
  unfold built_rng in Hbuilt. cbn in *.
  destruct (init_weights (rng (k_proc k))) as [w g]. cbn in *.
  repeat split; try assumption; intros Hn; [ apply (Hzero Hn) | apply (Hbuilt Hn) ].
Qed.

(** X7: [train_network] keeps its model and optimizer as locals and returns
    nothing.  With a positive batch size that the batching takes and
    [dataset] bound it succeeds, evaluates to None and leaves every notebook
    variable as it found it (the data, [dataset], [cnn_model], [history],
    [scores], [predictions], [cm]); only the epochs' lines are printed.  The
    discarded model is built by its first training step: when no step runs
    (no epoch, or a dataset smaller than the batch size) the generator is
    untouched, and otherwise it has served the initializers once. *)
Theorem train_network_discards_model (_batch_size _n_training_epochs : Z) (_lr : Q)
  (ds : list (Image * Label)) (k : Kernel) :
  (0 < _batch_size <= Dataset.batch_limit)%Z ->
  k_dataset k = Some ds ->
  ensures (train_network _batch_size _n_training_epochs _lr) k
    (fun v k' =>
       v = RetNone /\
       data k' = data k /\ k_dataset k' = k_dataset k /\
       cnn_model k' = cnn_model k /\ history k' = history k /\
       x_test_reshaped k' = x_test_reshaped k /\ scores k' = scores k /\
       predictions k' = predictions k /\ cm k' = cm k /\
       stdout (k_proc k') =
         stdout (k_proc k) ++ epoch_lines (ticks (k_proc k)) (range _n_training_epochs) /\
       (Z.to_nat _n_training_epochs * (length ds / Z.to_nat _batch_size) = 0 ->
        rng (k_proc k') = rng (k_proc k)) /\
       (Z.to_nat _n_training_epochs * (length ds / Z.to_nat _batch_size) <> 0 ->
        rng (k_proc k') = snd (init_weights (rng (k_proc k))))).
Proof.
  intros Hpos Hk.
  exact (train_network_frame _n_training_epochs _lr k Hpos Hk).
Qed.

(** X8: the reporting cells read globals that only the concise training cell
    binds.  Run while [cnn_model] is unbound, the test-accuracy cell and the
    confusion-matrix cell raise NameError; run while [history] is unbound, the
    plotting cell does.  The manual training cell does not help: after it has
    run, [cnn_model] and [history] are bound or unbound exactly as before. *)
Theorem reporting_needs_concise_training (k : Kernel) :
  (cnn_model k = None ->
   evaluate_cell k = inl NameError /\ confusion_cell k = inl NameError) /\
  (history k = None -> plot_cell k = inl NameError) /\
  (forall k', manual_training_cell k = inr (tt, k') ->
              cnn_model k' = cnn_model k /\ history k' = history k).
Proof.
  split; [ | split ].
  - intros Hm. split.
    + unfold evaluate_cell.
      erewrite bind_step by reflexivity.
      erewrite bind_step by reflexivity.
      apply bind_raises. unfold global.
      erewrite bind_step by reflexivity. cbn. rewrite Hm. reflexivity.
    + unfold confusion_cell.
      erewrite bind_step by reflexivity.
      erewrite bind_step by reflexivity.
      apply bind_raises. unfold global.
      erewrite bind_step by reflexivity. cbn. rewrite Hm. reflexivity.
  - intros Hh. unfold plot_cell. apply bind_raises. unfold global.
    erewrite bind_step by reflexivity. rewrite Hh. reflexivity.
  - intros k'. unfold manual_training_cell.
    erewrite bind_step by reflexivity.
    unfold bind at 1. unfold lift at 1.
    destruct (Dataset.from_tensor_slices _ _) as [e | ds]; [discriminate | ].
    erewrite bind_step by reflexivity.
    unfold bind at 1. unfold train_network.
    destruct (train_loop _ _ _) as [e | [v r']]; [discriminate | ].
    cbn. intros H. injection H as <-. cbn. split; reflexivity.
Qed.

End ManualPath.

Lemma train_network_discards_model_witness :
  ensures (train_network (F := toy) 2 1 (1 # 100)%Q)
    (set_dataset four_samples toy_trained_kernel)
    (fun v k' => v = RetNone /\ cnn_model k' = cnn_model toy_trained_kernel) /\
  ensures (train_network (F := toy) 5 1 (1 # 100)%Q)
    (set_dataset four_samples toy_trained_kernel)
    (fun v k' => rng (k_proc k') = rng (k_proc toy_trained_kernel)).
Proof.
  split.
  - eapply ensures_mono.
    { apply (@train_network_discards_model toy 2 1 (1 # 100)%Q four_samples
               (set_dataset four_samples toy_trained_kernel));
        [ split; [ lia | vm_compute; discriminate ] | reflexivity ]. }
    intros v k' (Hv & _ & _ & Hm & _). split; [ exact Hv | exact Hm ].
  - eapply ensures_mono.
    { apply (@train_network_discards_model toy 5 1 (1 # 100)%Q four_samples
               (set_dataset four_samples toy_trained_kernel));
        [ split; [ lia | vm_compute; discriminate ] | reflexivity ]. }
    intros v k' (_ & _ & _ & _ & _ & _ & _ & _ & _ & _ & Hzero & _).
    apply Hzero. reflexivity.
Defined.

Lemma reporting_needs_concise_training_witness :
  evaluate_cell (F := toy) toy_kernel = inl NameError /\
  plot_cell (F := toy) toy_kernel = inl NameError /\
  exists k', manual_training_cell (F := toy) toy_kernel = inr (tt, k') /\
             cnn_model k' = None /\ evaluate_cell k' = inl NameError.
Proof.
  destruct (@reporting_needs_concise_training toy toy_kernel) as (Hm & Hh & Hmanual).
  split; [ apply Hm; reflexivity | ].
  split; [ apply Hh; reflexivity | ].
  eexists. split; [ vm_compute; reflexivity | ].
  split; [ reflexivity | reflexivity ].
Defined.

(** ** What the confusion-matrix cell reports *)

Section ReportMeaning.

Lemma confusion_matrix_table (y_true y_pred : list Z) :
  length y_true = length y_pred ->
  Forall in_range y_true ->
  Metrics.confusion_matrix y_true y_pred Metrics.labels10 =
  inr (map (fun i => map (fun j => Metrics.count_pair i j (combine y_true y_pred))
                         Metrics.labels10) Metrics.labels10).
Proof.
  intros Hlen Htrue. unfold Metrics.confusion_matrix.
  assert (E : (length y_true =? length y_pred) = true) by (apply Nat.eqb_eq; exact Hlen).
  rewrite E. cbn [negb].
  destruct y_true as [ | y ys ]; [ reflexivity | ].
  cbn [existsb]. rewrite labels10_mem by (inversion Htrue; assumption). reflexivity.
Qed.

Lemma nth_table {A} (f : Z -> A) (d : A) (i : nat) :
  i < 10 -> nth i (map f Metrics.labels10) d = f (Z.of_nat i).
Proof.
  intros Hi. do 10 (destruct i as [ | i ]; [ reflexivity | ]). lia.
Qed.

Lemma nth_error_table {A} (f : Z -> A) (i : nat) :
  i < 10 -> nth_error (map f Metrics.labels10) i = Some (f (Z.of_nat i)).
Proof.
  intros Hi. do 10 (destruct i as [ | i ]; [ reflexivity | ]). lia.
Qed.

(** X9: for aligned true and predicted classes in 0..9, the value the cell
    reports for class i is the number of samples of class i that were
    predicted as class i, divided by the number of samples of class i. *)
Theorem per_class_accuracy_is_recall (y_true y_pred : list Z) (i : nat) :
  length y_true = length y_pred ->
  Forall in_range y_true ->
  Forall in_range y_pred ->
  i < 10 ->
  exists cm,
    Metrics.confusion_matrix y_true y_pred Metrics.labels10 = inr cm /\
    nth_error (Metrics.per_class_accuracy cm) i =
    Some (Metrics.true_divide
            (length (filter (fun p => (fst p =? Z.of_nat i)%Z && (snd p =? Z.of_nat i)%Z)
                       (combine y_true y_pred)))
            (count_occ Z.eq_dec y_true (Z.of_nat i))).
Proof.
  intros Hlen Htrue Hpred Hi.
  eexists. split; [ apply confusion_matrix_table; assumption | ].
  set (table := map _ Metrics.labels10).
  assert (Hrow : nth_error table i =
                 Some (map (fun j => Metrics.count_pair (Z.of_nat i) j
                                        (combine y_true y_pred)) Metrics.labels10))
    by (apply nth_error_table; exact Hi).
  pose proof (per_class_accuracy_at table 0 i Hrow) as Hat.
  fold (Metrics.diagonal table) in Hat. fold (Metrics.sum_axis1 table) in Hat.
  fold (Metrics.per_class_accuracy table) in Hat. cbn [Nat.add] in Hat.
  rewrite Hat. f_equal. f_equal.
  - apply (nth_table (fun j => Metrics.count_pair (Z.of_nat i) j (combine y_true y_pred))).
    exact Hi.
  - apply row_sum; [ apply labels10_nodup | exact Hlen | ].
    eapply Forall_impl; [ | exact Hpred ]. intros c. apply labels10_in.
Qed.

Lemma count_diagonal (j : Z) (pairs : list (Z * Z)) :
  Metrics.count_pair j j pairs =
  length (filter (fun p => (fst p =? j)%Z)
            (filter (fun p => (fst p =? snd p)%Z) pairs)).
Proof.
  unfold Metrics.count_pair. rewrite <- filter_andb. f_equal.
  apply filter_ext. intros [y c]. cbn.
  destruct (Z.eqb_spec y j), (Z.eqb_spec c j), (Z.eqb_spec y c);
    try reflexivity; lia.
Qed.

Lemma table_trace (y_true y_pred : list Z) :
  Forall in_range y_true ->
  list_sum (Metrics.diagonal
              (map (fun i => map (fun j => Metrics.count_pair i j (combine y_true y_pred))
                                 Metrics.labels10) Metrics.labels10)) =
  length (filter (fun p => (fst p =? snd p)%Z) (combine y_true y_pred)).
Proof.
  intros Htrue.
  transitivity
    (list_sum (map (fun j => Metrics.count_pair j j (combine y_true y_pred))
                 Metrics.labels10)); [ reflexivity | ].
  rewrite (map_ext _ _ (fun j => count_diagonal j (combine y_true y_pred))).
  apply (partition_count fst); [ apply labels10_nodup | ].
  apply Forall_forall. intros [y c] Hin. apply filter_In in Hin. destruct Hin as [Hin _].
  apply in_combine_l in Hin. cbn. apply labels10_in.
  rewrite Forall_forall in Htrue. apply Htrue. exact Hin.
Qed.

(** X10: the diagonal of the confusion matrix adds up to the number of
    correctly classified samples. *)
Theorem confusion_matrix_trace (y_true y_pred : list Z) :
  length y_true = length y_pred ->
  Forall in_range y_true ->
  exists cm,
    Metrics.confusion_matrix y_true y_pred Metrics.labels10 = inr cm /\
    list_sum (Metrics.diagonal cm) =
    length (filter (fun p => (fst p =? snd p)%Z) (combine y_true y_pred)).
Proof.
  intros Hlen Htrue.
  eexists. split; [ apply confusion_matrix_table; assumption | ].
  apply table_trace. exact Htrue.
Qed.

End ReportMeaning.

Lemma per_class_accuracy_is_recall_witness :
  exists cm,
    Metrics.confusion_matrix [1; 1; 0]%Z [1; 0; 0]%Z Metrics.labels10 = inr cm /\
    nth_error (Metrics.per_class_accuracy cm) 1 = Some (Metrics.Finite (1 # 2)%Q).
Proof.
  destruct (@per_class_accuracy_is_recall [1; 1; 0]%Z [1; 0; 0]%Z 1)
    as (cm & Hcm & Hacc).
  - reflexivity.
  - repeat constructor; unfold in_range; lia.
  - repeat constructor; unfold in_range; lia.
  - lia.
  - exists cm. split; [ exact Hcm | exact Hacc ].
Defined.

Lemma confusion_matrix_trace_witness :
  exists cm,
    Metrics.confusion_matrix [1; 1; 0]%Z [1; 0; 0]%Z Metrics.labels10 = inr cm /\
    list_sum (Metrics.diagonal cm) = 2.
Proof.
  destruct (@confusion_matrix_trace [1; 1; 0]%Z [1; 0; 0]%Z) as (cm & Hcm & Htrace).
  - reflexivity.
  - repeat constructor; unfold in_range; lia.
  - exists cm. split; [ exact Hcm | exact Htrace ].
Defined.

(** ** Batches that keep the remainder *)

Section ChunkKeepFacts.
Context {A : Type}.

Lemma chunks_keep_concat (b : nat) (ds : list A) :
  concat (Dataset.chunks (S b) false ds) = ds.
Proof.
  funelim (Dataset.chunks (S b) false ds).
  - reflexivity.
  - cbn [concat].
    match goal with IH : concat _ = _ |- _ => rewrite IH end.
    apply firstn_skipn.
  - cbn [concat]. apply app_nil_r.
Qed.

Lemma chunks_unfold (b : nat) (drop : bool) (ds : list A) :
  Dataset.chunks (S b) drop ds =
  match ds with
  | [] => []
  | _ :: _ =>
      if S b <=? length ds
      then firstn (S b) ds :: Dataset.chunks (S b) drop (skipn (S b) ds)
      else if drop then [] else [ds]
  end.
Proof.
  funelim (Dataset.chunks (S b) drop ds).
  - reflexivity.
  - destruct (Nat.leb_spec (S b) (length (x :: ds))); [reflexivity | lia].
  - destruct (Nat.leb_spec (S b) (length (x :: ds))); [lia | reflexivity].
Qed.

End ChunkKeepFacts.

Lemma chunks_map {A B} (f : A -> B) (b : nat) (drop : bool) (ds : list A) :
  Dataset.chunks (S b) drop (map f ds) = map (map f) (Dataset.chunks (S b) drop ds).
Proof.
  remember (length ds) as n eqn:Hn. revert ds Hn.
  induction n as [n IH] using lt_wf_ind. intros ds Hn.
  rewrite (chunks_unfold b drop ds), (chunks_unfold b drop (map f ds)).
  destruct ds as [ | x ds ]; [reflexivity | ].
  change (map f (x :: ds)) with (f x :: map f ds) at 1.
  cbn iota. rewrite length_map.
  destruct (Nat.leb_spec (S b) (length (x :: ds))) as [Hle | Hgt].
  - cbn [map firstn skipn]. rewrite firstn_map, skipn_map.
    rewrite (IH (length (skipn b ds))); [ reflexivity | | reflexivity ].
    rewrite length_skipn. subst n. cbn [length] in *. lia.
  - destruct drop; reflexivity.
Qed.

(** ** Keras's inference loops on a well-shaped classifier *)

Section Shapes.
Context {F : Framework}.
Hypothesis Hshape : well_shaped.

Lemma argmax_row_bounded (row : list Scalar) :
  0 < length row <= 10 ->
  exists c, argmax_row row = inr c /\ in_range c.
Proof.
  destruct row as [ | x row ]; cbn [length]; intros Hlen; [lia | ].
  eexists. split; [reflexivity | ].
  pose proof (argmax_from_bound row x (best_i := 0) (i := 1)) as Hb.
  unfold in_range. lia.
Qed.

Lemma map_result_app {A B} (f : A -> Result B) (l1 l2 : list A) ys1 ys2 :
  map_result f l1 = inr ys1 ->
  map_result f l2 = inr ys2 ->
  map_result f (l1 ++ l2) = inr (ys1 ++ ys2).
Proof.
  revert ys1. induction l1 as [ | x l1 IH ]; intros ys1 H1 H2.
  - cbn in H1. injection H1 as <-. exact H2.
  - cbn in H1 |- *. destruct (f x) as [e | y]; [discriminate | ].
    destruct (map_result f l1) as [e | ys]; [discriminate | ].
    injection H1 as <-. rewrite (IH ys eq_refl H2). reflexivity.
Qed.

(** The classes of one batch: as many as images, each in 0..9. *)
Lemma batch_classes (w : Params) (images : list Image) (g : Rng) :
  exists classes,
    argmax_axis1 (rows (infer w (stack_images images))) = inr classes /\
    length classes = length images /\
    Forall in_range classes.
Proof.
  destruct (Hshape (Some false) w images g) as [Hlen Hrows].
  change (fst (model_call (Some false) w (stack_images images) g))
    with (infer w (stack_images images)) in Hlen, Hrows.
  destruct (map_result_ok argmax_row in_range
              (l := rows (infer w (stack_images images))))
    as (classes & Hc & Hclen & Hcin).
  { eapply Forall_impl; [ | exact Hrows ]. intros row. apply argmax_row_bounded. }
  exists classes. split; [ exact Hc | ]. split; [ lia | exact Hcin ].
Qed.

Lemma predict_steps_out (w : Params) (batches : list (list Image)) (g : Rng) :
  predict_steps w batches g =
  (concat (map (fun b => rows (infer w (stack_images b))) batches), g).
Proof.
  induction batches as [ | b rest IH ]; [reflexivity | ].
  cbn [predict_steps]. unfold model_call, call, Dropout, resolve_training.
  rewrite IH. reflexivity.
Qed.

Lemma combine_append {A B} (l1 l2 : list A) (m1 m2 : list B) :
  length l1 = length m1 ->
  combine (l1 ++ l2) (m1 ++ m2) = combine l1 m1 ++ combine l2 m2.
Proof.
  revert m1. induction l1 as [ | a l1 IH ]; intros [ | b m1 ] Hlen; try discriminate.
  - reflexivity.
  - cbn. rewrite IH by (cbn in Hlen; lia). reflexivity.
Qed.

Lemma count_matches_app (y1 y2 : list Label) (c1 c2 : list Z) :
  length y1 = length c1 ->
  count_matches (y1 ++ y2) (c1 ++ c2) = count_matches y1 c1 + count_matches y2 c2.
Proof.
  intros Hlen. unfold count_matches.
  rewrite combine_append by exact Hlen. rewrite filter_app, length_app. reflexivity.
Qed.

(** The test steps of [evaluate] on chunks of (image, label) pairs count the
    samples whose label is the class that [predict] and argmax give. *)
Lemma test_steps_matches (w : Params) (cs : list (list (Image * Label))) (g : Rng) :
  exists losses classes,
    test_steps w (map Dataset.stack_pair cs) g =
      inr (losses, count_matches (map snd (concat cs)) classes, g) /\
    argmax_axis1
      (concat (map (fun b => rows (infer w (stack_images b))) (map (map fst) cs)))
      = inr classes /\
    length classes = length (concat cs) /\
    Forall in_range classes /\
    length losses = length cs.
Proof.
  induction cs as [ | c cs (losses & classes & Hsteps & Hargmax & Hlen & Hrange & Hlosses) ].
  - exists [], []. repeat split; constructor.
  - destruct (batch_classes w (map fst c) g) as (cls & Hcls & Hclen & Hcrange).
    exists ((scce (map snd c) (infer w (stack_images (map fst c))), length (map fst c))
            :: losses), (cls ++ classes).
    split; [ | split; [ | split; [ | split ] ] ].
    + cbn [map test_steps Dataset.stack_pair].
      unfold model_call, call, Dropout, resolve_training.
      change (dense_7 w (dense_5 w (flatten (pool_3 (conv_2 w
                (conv_1 w (stack_images (map fst c))))))))
        with (infer w (stack_images (map fst c))).
      rewrite Hcls, Hsteps. cbn [concat]. rewrite map_app, count_matches_app.
      * reflexivity.
      * rewrite length_map in *. lia.
    + cbn [map concat]. unfold argmax_axis1 in *.
      apply map_result_app; assumption.
    + cbn [concat]. rewrite !length_app, length_map in *. lia.
    + apply Forall_app. split; assumption.
    + cbn [length]. rewrite Hlosses. reflexivity.
Qed.

End Shapes.

Lemma ensures_get {S} (s : S) (Q : S -> S -> Prop) : Q s s -> ensures get s Q.
Proof. intros H. exact H. Qed.

Lemma ensures_modify {S} (f : S -> S) (s : S) (Q : unit -> S -> Prop) :
  Q tt (f s) -> ensures (modify f) s Q.
Proof. intros H. exact H. Qed.

Lemma map_fst_zip {A B} (l : list A) (m : list B) :
  length l = length m -> map fst (combine l m) = l.
Proof.
  revert m. induction l as [ | a l IH ]; intros [ | b m ] Hlen; try discriminate.
  - reflexivity.
  - cbn. rewrite IH by (cbn in Hlen; lia). reflexivity.
Qed.

Lemma map_snd_zip {A B} (l : list A) (m : list B) :
  length l = length m -> map snd (combine l m) = m.
Proof.
  revert m. induction l as [ | a l IH ]; intros [ | b m ] Hlen; try discriminate.
  - reflexivity.
  - cbn. rewrite IH by (cbn in Hlen; lia). reflexivity.
Qed.

Section InferenceResults.
Context {F : Framework}.
Hypothesis Hshape : well_shaped.

Lemma predict_result (m : Model) (x0 : Image) (x : list Image) (g : Rng) :
  exists m',
    predict m (x0 :: x) g = inr (predicted (weights m) (x0 :: x), m', g) /\
    weights m' = weights m /\ compiled m' = compiled m.
Proof.
  unfold predict. rewrite predict_steps_out.
  eexists. split; [ reflexivity | ]. split; reflexivity.
Qed.

Lemma predicted_classes (w : Params) (x : list Image) (y : list Label) (g : Rng) :
  length x = length y ->
  exists losses classes,
    test_steps w (map Dataset.stack_pair (Dataset.chunks 32 false (combine x y))) g =
      inr (losses, count_matches y classes, g) /\
    argmax_axis1 (predicted w x) = inr classes /\
    length classes = length y /\
    Forall in_range classes /\
    length (predicted w x) = length x.
Proof.
  intros Hlen.
  destruct (test_steps_matches Hshape w (Dataset.chunks 32 false (combine x y)) g)
    as (losses & classes & Hsteps & Hargmax & Hclen & Hrange & _).
  rewrite chunks_keep_concat in Hsteps, Hclen.
  rewrite map_snd_zip in Hsteps by exact Hlen.
  rewrite <- chunks_map, map_fst_zip in Hargmax by exact Hlen.
  fold (predicted w x) in Hargmax.
  exists losses, classes.
  split; [ exact Hsteps | ]. split; [ exact Hargmax | ].
  rewrite length_combine in Hclen.
  split; [ lia | ]. split; [ exact Hrange | ].
  unfold argmax_axis1 in Hargmax.
  assert (Hl : forall (l : list (list Scalar)) cs,
             map_result argmax_row l = inr cs -> length cs = length l).
  { induction l as [ | r l IH ]; intros cs H.
    - cbn in H. injection H as <-. reflexivity.
    - cbn in H. destruct (argmax_row r); [discriminate | ].
      destruct (map_result argmax_row l) as [ | cs' ]; [discriminate | ].
      injection H as <-. cbn. rewrite (IH cs' eq_refl). reflexivity. }
  rewrite <- (Hl _ _ Hargmax). lia.
Qed.

Lemma evaluate_result (m : Model) (c : Compiled) (x0 : Image) (x : list Image)
  (y : list Label) (g : Rng) :
  compiled m = Some c ->
  length (x0 :: x) = length y ->
  exists loss classes steps m',
    evaluate m (x0 :: x) y g =
      inr ([loss; ratio (count_matches y classes) (length (x0 :: x))], steps, m', g) /\
    argmax_axis1 (predicted (weights m) (x0 :: x)) = inr classes /\
    weights m' = weights m /\ compiled m' = compiled m.
Proof.
  intros Hc Hlen.
  destruct (predicted_classes (weights m) (x0 :: x) y g Hlen)
    as (losses & classes & Hsteps & Hargmax & _).
  unfold evaluate. rewrite Hc.
  assert (E : (length (x0 :: x) =? length y) = true) by (apply Nat.eqb_eq; exact Hlen).
  rewrite E. cbn [negb]. rewrite Hsteps.
  do 4 eexists. split; [ reflexivity | ].
  split; [ exact Hargmax | ]. split; reflexivity.
Qed.

End InferenceResults.

(** ** The reporting cells on a trained model *)

Section ReportingCells.
Context {F : Framework}.
Hypothesis Hshape : well_shaped.

Lemma evaluate_cell_result (k : Kernel) (m : Model) (c : Compiled) (name : string) :
  cnn_model k = Some m ->
  compiled m = Some c ->
  nth_error (metrics_names c) 1 = Some name ->
  x_test (data k) <> [] ->
  length (x_test (data k)) = length (y_test (data k)) ->
  ensures evaluate_cell k
    (fun _ k' =>
       exists loss classes steps m',
         argmax_axis1 (predicted (weights m) (x_test (data k))) = inr classes /\
         scores k' =
           Some [loss; ratio (count_matches (y_test (data k)) classes)
                         (length (x_test (data k)))] /\
         stdout (k_proc k') =
           stdout (k_proc k) ++
           [EvaluateLine steps loss
              (ratio (count_matches (y_test (data k)) classes) (length (x_test (data k))));
            Percent name
              (ratio (count_matches (y_test (data k)) classes) (length (x_test (data k))))] /\
         cnn_model k' = Some m' /\ weights m' = weights m /\ compiled m' = compiled m /\
         data k' = data k /\ rng (k_proc k') = rng (k_proc k)).
Proof.
  intros Hm Hc Hname Hne Hlen.
  destruct (x_test (data k)) as [ | x0 x ] eqn:Hx; [ contradiction | ].
  destruct (@evaluate_result F Hshape m c x0 x (y_test (data k)) (rng (k_proc k)) Hc Hlen)
    as (loss & classes & steps & m' & Heval & Hargmax & Hw & Hc').
  unfold evaluate_cell, global.
  apply ensures_bind, ensures_get.
  apply ensures_bind, ensures_modify.
  apply ensures_bind, ensures_bind, ensures_get. cbn [cnn_model set_x_test_reshaped].
  rewrite Hm. apply ensures_ret.
  apply ensures_bind, ensures_get.
  apply ensures_bind.
  eapply ensures_lift.
  { cbn [data set_x_test_reshaped k_proc]. rewrite Hx. exact Heval. }
  cbn beta iota.
  apply ensures_bind, ensures_modify.
  apply ensures_bind, ensures_modify.
  apply ensures_bind, ensures_modify.
  apply ensures_bind, ensures_modify.
  apply ensures_bind, ensures_bind, ensures_get.
  cbn [cnn_model set_scores set_proc set_cnn_model].
  apply ensures_ret. rewrite Hc', Hc, Hname. cbn [nth_error].
  apply ensures_modify.
  exists loss, classes, steps, m'.
  split; [ exact Hargmax | ]. cbn. rewrite <- app_assoc. cbn [app].
  repeat split; try assumption; try reflexivity. congruence.
Qed.

Lemma print_class_accuracies (l : list (Z * Metrics.NpFloat)) :
  forall k : Kernel,
    ensures (for_each l (fun '(i, j) => k_print (ClassAccuracy i j))) k
      (fun _ k' =>
         stdout (k_proc k') =
           stdout (k_proc k) ++ map (fun '(i, j) => ClassAccuracy i j) l /\
         rng (k_proc k') = rng (k_proc k) /\
         predictions k' = predictions k /\ cm k' = cm k /\ scores k' = scores k /\
         cnn_model k' = cnn_model k /\ data k' = data k).
Proof.
  induction l as [ | [i j] l IH ]; intros k.
  - apply ensures_ret. rewrite app_nil_r. repeat split; reflexivity.
  - cbn [for_each]. apply ensures_bind, ensures_modify.
    eapply ensures_mono; [ apply IH | ].
    intros u k' (Hout & Hrng & Hp & Hcm & Hs & Hm & Hd). cbn in *.
    rewrite Hout, <- app_assoc. repeat split; assumption.
Qed.

Lemma confusion_cell_result (k : Kernel) (m : Model) :
  cnn_model k = Some m ->
  x_test (data k) <> [] ->
  length (x_test (data k)) = length (y_test (data k)) ->
  Forall in_range (y_test (data k)) ->
  ensures confusion_cell k
    (fun _ k' =>
       exists classes c m',
         argmax_axis1 (predicted (weights m) (x_test (data k))) = inr classes /\
         length classes = length (y_test (data k)) /\
         Forall in_range classes /\
         Metrics.confusion_matrix (y_test (data k)) classes Metrics.labels10 = inr c /\
         c = map (fun i => map (fun j => Metrics.count_pair i j
                                           (combine (y_test (data k)) classes))
                               Metrics.labels10) Metrics.labels10 /\
         predictions k' = Some (predicted (weights m) (x_test (data k))) /\
         cm k' = Some c /\
         scores k' = scores k /\
         stdout (k_proc k') =
           stdout (k_proc k) ++
           [Text "Confusion matrix (rows: true classes; columns: predicted classes):";
            Text ""; Matrix c; Text "";
            Text "Classification accuracy for each class:"; Text ""] ++
           map (fun '(i, j) => ClassAccuracy i j)
               (enumerate (Metrics.per_class_accuracy c)) /\
         cnn_model k' = Some m' /\ weights m' = weights m /\ data k' = data k).
Proof.
  intros Hm Hne Hlen Hrange.
  destruct (x_test (data k)) as [ | x0 x ] eqn:Hx; [ contradiction | ].
  destruct (predict_result m x0 x (rng (k_proc k))) as (m' & Hpred & Hw & Hc').
  destruct (@predicted_classes F Hshape (weights m) (x0 :: x) (y_test (data k))
              (rng (k_proc k)) Hlen)
    as (losses & classes & _ & Hargmax & Hclen & Hcrange & _).
  pose proof (@confusion_matrix_table (y_test (data k)) classes (eq_sym Hclen) Hrange)
    as Hcm.
  set (table := map _ Metrics.labels10) in Hcm.
  unfold confusion_cell, global.
  apply ensures_bind, ensures_modify.
  apply ensures_bind, ensures_modify.
  apply ensures_bind, ensures_bind, ensures_get. cbn [cnn_model set_proc].
  rewrite Hm. apply ensures_ret.
  apply ensures_bind, ensures_get.
  apply ensures_bind.
  eapply ensures_lift.
  { cbn [data set_proc k_proc rng emit]. rewrite Hx. exact Hpred. }
  cbn beta iota.
  apply ensures_bind, ensures_modify.
  apply ensures_bind, ensures_modify.
  apply ensures_bind, ensures_modify.
  apply ensures_bind. eapply ensures_lift; [ exact Hargmax | ].
  apply ensures_bind, ensures_get.
  apply ensures_bind. eapply ensures_lift; [ cbn [data set_predictions set_proc set_cnn_model]; exact Hcm | ].
  apply ensures_bind, ensures_modify.
  apply ensures_bind, ensures_modify.
  apply ensures_bind, ensures_modify.
  apply ensures_bind, ensures_modify.
  apply ensures_bind, ensures_modify.
  eapply ensures_mono; [ apply print_class_accuracies | ].
  intros u k' (Hout & _ & Hp & Hc & Hs & Hmod & Hd).
  cbn [k_proc stdout set_proc emit set_rng set_cm set_predictions set_cnn_model
       predictions cm scores cnn_model data] in Hout, Hp, Hc, Hs, Hmod, Hd.
  exists classes, table, m'.
  split; [ exact Hargmax | ]. split; [ exact Hclen | ]. split; [ exact Hcrange | ].
  split; [ exact Hcm | ]. split; [ reflexivity | ].
  split; [ exact Hp | ]. split; [ exact Hc | ]. split; [ exact Hs | ].
  split; [ | split; [ exact Hmod | split; [ exact Hw | exact Hd ] ] ].
  rewrite Hout. rewrite <- !app_assoc. reflexivity.
Qed.

End ReportingCells.

Lemma length_per_class_accuracy (cm : list (list nat)) :
  length (Metrics.per_class_accuracy cm) = length cm.
Proof.
  unfold Metrics.per_class_accuracy, Metrics.diagonal, Metrics.sum_axis1.
  rewrite length_map, length_combine, !length_map, length_combine, length_seq. lia.
Qed.

Lemma count_matches_filter (y_true classes : list Z) :
  count_matches y_true classes =
  length (filter (fun p => (fst p =? snd p)%Z) (combine y_true classes)).
Proof.
  unfold count_matches. f_equal. apply filter_ext. intros [y c]. reflexivity.
Qed.

Lemma toy_well_shaped : @well_shaped toy.
Proof.
  intros training w images g. cbv zeta.
  assert (Hrows : forall t : list (list nat),
             Forall (fun row => 0 < length row <= 10)
               (map (fun r => [list_sum r mod 2; 1 - list_sum r mod 2]) t)).
  { intros t. apply Forall_forall. intros row Hin.
    apply in_map_iff in Hin. destruct Hin as (r & <- & _). cbn. lia. }
  destruct training as [[ | ] | ]; cbn; rewrite ?length_map;
    (split; [ reflexivity | apply Hrows ]).
Qed.

(** X11: on a well-shaped classifier, with [cnn_model] bound, a non-empty
    test partition, as many test labels as test images and labels in 0..9,
    the confusion-matrix cell runs to completion: it stores one prediction row
    per test image and a 10x10 matrix whose entries add up to the number of
    test samples, and it prints the two headers, the matrix and exactly ten
    per-class accuracy lines, numbered in order. *)
Theorem confusion_cell_report {F : Framework} (k : Kernel) (m : Model) :
  well_shaped ->
  cnn_model k = Some m ->
  x_test (data k) <> [] ->
  length (x_test (data k)) = length (y_test (data k)) ->
  Forall in_range (y_test (data k)) ->
  ensures confusion_cell k
    (fun _ k' =>
       exists p c,
         predictions k' = Some p /\ length p = length (x_test (data k)) /\
         cm k' = Some c /\ length c = 10 /\
         list_sum (map (@list_sum) c) = length (y_test (data k)) /\
         length (Metrics.per_class_accuracy c) = 10 /\
         stdout (k_proc k') =
           stdout (k_proc k) ++
           [Text "Confusion matrix (rows: true classes; columns: predicted classes):";
            Text ""; Matrix c; Text "";
            Text "Classification accuracy for each class:"; Text ""] ++
           map (fun '(i, j) => ClassAccuracy i j)
               (enumerate (Metrics.per_class_accuracy c))).
Proof.
  intros Hshape Hm Hne Hlen Hrange.
  eapply ensures_mono; [ apply (confusion_cell_result Hshape k Hm Hne Hlen Hrange) | ].
  intros u k' (classes & c & m' & Hargmax & Hclen & Hcrange & Hcm & Hc & Hp & Hcmk
               & _ & Hout & _).
  cbn beta.
  destruct (@predicted_classes F Hshape (weights m) (x_test (data k)) (y_test (data k))
              (rng (k_proc k)) Hlen) as (_ & _ & _ & _ & _ & _ & Hplen).
  exists (predicted (weights m) (x_test (data k))), c.
  split; [ exact Hp | ]. split; [ exact Hplen | ]. split; [ exact Hcmk | ].
  split; [ subst c; reflexivity | ].
  split.
  { subst c. apply table_total; [ apply labels10_nodup | symmetry; exact Hclen | | ].
    - eapply Forall_impl; [ | exact Hrange ]. intros y. apply labels10_in.
    - eapply Forall_impl; [ | exact Hcrange ]. intros y. apply labels10_in. }
  split; [ rewrite length_per_class_accuracy; subst c; reflexivity | exact Hout ].
Qed.

Lemma confusion_cell_report_witness :
  ensures (confusion_cell (F := toy)) toy_trained_kernel
    (fun _ k' => exists p c, predictions k' = Some p /\ length p = 2 /\
                             cm k' = Some c /\ list_sum (map (@list_sum) c) = 2).
Proof.
  eapply ensures_mono.
  { apply (@confusion_cell_report toy toy_trained_kernel
             (match cnn_model toy_trained_kernel with
              | Some m => m
              | None => fst (@build toy (@CIFAR10Classifier toy) 0)
              end) toy_well_shaped).
    - vm_compute. reflexivity.
    - discriminate.
    - reflexivity.
    - repeat constructor; unfold in_range; lia. }
  intros u k' (p & c & Hp & Hlen & Hc & _ & Htotal & _).
  exists p, c. split; [ exact Hp | ]. split; [ exact Hlen | ].
  split; [ exact Hc | exact Htotal ].
Defined.

(** X12: the test accuracy and the confusion matrix agree.  Under the same
    assumptions, with the model compiled, running the test-accuracy cell and
    then the confusion-matrix cell succeeds, and the accuracy stored in
    [scores] is the ratio of the sum of the confusion matrix's diagonal to the
    number of test samples. *)
Theorem test_accuracy_is_trace {F : Framework} (k : Kernel) (m : Model) (c : Compiled)
  (name : string) :
  well_shaped ->
  cnn_model k = Some m ->
  compiled m = Some c ->
  nth_error (metrics_names c) 1 = Some name ->
  x_test (data k) <> [] ->
  length (x_test (data k)) = length (y_test (data k)) ->
  Forall in_range (y_test (data k)) ->
  ensures (evaluate_cell ;; confusion_cell) k
    (fun _ k' =>
       exists loss table,
         cm k' = Some table /\
         scores k' =
           Some [loss; ratio (list_sum (Metrics.diagonal table))
                         (length (x_test (data k)))]).
Proof.
  intros Hshape Hm Hc Hname Hne Hlen Hrange.
  apply ensures_bind.
  eapply ensures_mono;
    [ apply (evaluate_cell_result Hshape k Hm Hc Hname Hne Hlen) | ].
  intros u k1 (loss & classes & steps & m1 & Hargmax & Hscores & _ & Hm1 & Hw1 & _
               & Hd1 & _).
  cbn beta.
  eapply ensures_mono.
  { apply (confusion_cell_result Hshape k1 Hm1); rewrite Hd1; assumption. }
  intros u' k' (classes' & table & m' & Hargmax' & Hclen & _ & _ & Htable & _ & Hcm
                & Hs & _).
  cbn beta. rewrite Hd1, Hw1 in *. rewrite Hargmax in Hargmax'.
  injection Hargmax' as <-.
  exists loss, table. split; [ exact Hcm | ].
  rewrite Hs, Hscores. subst table.
  rewrite table_trace by exact Hrange. rewrite count_matches_filter. reflexivity.
Qed.

Lemma test_accuracy_is_trace_witness :
  ensures (evaluate_cell (F := toy) ;; confusion_cell (F := toy)) toy_trained_kernel
    (fun _ k' => exists loss table, cm k' = Some table /\
                   scores k' = Some [loss; list_sum (Metrics.diagonal table)]).
Proof.
  eapply ensures_mono.
  { apply (@test_accuracy_is_trace toy toy_trained_kernel
             (match cnn_model toy_trained_kernel with
              | Some m => m
              | None => fst (@build toy (@CIFAR10Classifier toy) 0)
              end)
             (match cnn_model toy_trained_kernel with
              | Some {| compiled := Some c |} => c
              | _ => @Build_Compiled toy "" (@Adam toy 0) []
              end) "accuracy" toy_well_shaped).
    - vm_compute. reflexivity.
    - vm_compute. reflexivity.
    - vm_compute. reflexivity.
    - discriminate.
    - reflexivity.
    - repeat constructor; unfold in_range; lia. }
  intros u k' (loss & table & Hcm & Hscores).
  exists loss, table. split; [ exact Hcm | exact Hscores ].
Defined.

(** ** The concise training path *)

Section ConcisePath.
Context {F : Framework}.
Hypothesis Hshape : well_shaped.

Lemma train_step_ok (bx : list Image) (by_ : list Label) (w : Params) (o : Optimizer)
  (g : Rng) :
  exists loss matches w' o' g',
    train_step bx by_ (w, o, g) = inr (loss, matches, (w', o', g')) /\
    learning_rate o' = learning_rate o.
Proof.
  unfold train_step.
  pose proof (Hshape (Some true) w bx g) as [_ Hrows].
  destruct (model_call (Some true) w (stack_images bx) g) as [y_pred g'].
  cbn [fst] in Hrows.
  destruct (map_result_ok argmax_row in_range (l := rows y_pred)) as (classes & Hc & _).
  { eapply Forall_impl; [ | exact Hrows ]. intros row. apply argmax_row_bounded. }
  unfold apply_gradients. destruct (adam_step _ _ _ _ _) as [s' w'].
  unfold argmax_axis1. rewrite Hc.
  do 5 eexists. split; reflexivity.
Qed.

Lemma train_steps_ok (batches : list (list Image * list Label)) :
  forall (w : Params) (o : Optimizer) (g : Rng),
  exists losses matches w' o' g',
    train_steps batches (w, o, g) = inr (losses, matches, (w', o', g')) /\
    learning_rate o' = learning_rate o.
Proof.
  induction batches as [ | [bx by_] rest IH ]; intros w o g.
  - do 5 eexists. split; reflexivity.
  - destruct (train_step_ok bx by_ w o g) as (loss & matches & w1 & o1 & g1 & Hstep & Hlr).
    destruct (IH w1 o1 g1) as (losses & matches' & w2 & o2 & g2 & Hrest & Hlr2).
    cbn [train_steps]. rewrite Hstep, Hrest.
    do 5 eexists. split; [ reflexivity | congruence ].
Qed.

Lemma fit_epochs_ok (n : Z) (batch_size : nat) (samples : list (Image * Label))
  (epochs : list Z) :
  forall (w : Params) (o : Optimizer) (g : Rng) (h : History) (out : list Line),
  exists h' w' o' g' out',
    fit_epochs n batch_size samples epochs (w, o, g) h out = inr (h', (w', o', g'), out') /\
    h_epoch h' = h_epoch h ++ epochs /\
    length (h_loss h') = length (h_loss h) + length epochs /\
    length (h_accuracy h') = length (h_accuracy h) + length epochs /\
    length out' = length out + length epochs /\
    learning_rate o' = learning_rate o.
Proof.
  induction epochs as [ | i rest IH ]; intros w o g h out.
  - do 5 eexists. split; [ reflexivity | ].
    rewrite app_nil_r, !Nat.add_0_r. repeat split; reflexivity.
  - cbn [fit_epochs].
    destruct (shuffle (Z.of_nat (length samples)) samples g) as [shuffled g1].
    destruct (train_steps_ok
                (map Dataset.stack_pair (Dataset.chunks batch_size false shuffled)) w o g1)
      as (losses & matches & w1 & o1 & g2 & Hsteps & Hlr).
    rewrite Hsteps.
    match goal with |- context [fit_epochs _ _ _ _ _ ?h1 ?out1] =>
      destruct (IH w1 o1 g2 h1 out1)
        as (h' & w' & o' & g' & out' & Hfit & He & Hl & Ha & Hout & Hlr')
    end.
    rewrite Hfit. cbn [h_epoch h_loss h_accuracy] in He, Hl, Ha.
    rewrite !length_app in *. cbn [length] in *.
    do 5 eexists. split; [ reflexivity | ].
    rewrite He, <- app_assoc. cbn [app].
    repeat split; try lia. congruence.
Qed.

Lemma train_network_concise_result (_batch_size _n_training_epochs : Z) (_lr : Q)
  (k : Kernel) :
  (0 < _batch_size)%Z ->
  x_train (data k) <> [] ->
  length (x_train (data k)) = length (y_train (data k)) ->
  ensures (train_network_concise _batch_size _n_training_epochs _lr) k
    (fun v k' =>
       exists h m c,
         v = RetHistoryModel h m /\
         h_epoch h = range _n_training_epochs /\
         length (h_loss h) = Z.to_nat _n_training_epochs /\
         length (h_accuracy h) = Z.to_nat _n_training_epochs /\
         compiled m = Some c /\
         learning_rate (optimizer c) = adam_default_lr /\
         metrics_names c = ["loss"; "accuracy"]%string /\
         data k' = data k /\ cnn_model k' = cnn_model k /\ history k' = history k /\
         figures (k_proc k') = figures (k_proc k)).
Proof.
  intros Hpos Hne Hlen.
  unfold ensures, train_network_concise, CIFAR10Classifier, build.
  destruct (init_weights (rng (k_proc k))) as [w g].
  cbn [compile optimizers_get String.eqb Ascii.eqb Bool.eqb].
  unfold fit. cbn [compiled weights optimizer].
  assert (E : (length (x_train (data k)) =? length (y_train (data k))) = true)
    by (apply Nat.eqb_eq; exact Hlen).
  rewrite E. cbn [negb].
  destruct (Z.leb_spec _batch_size 0) as [ | _ ]; [lia | ].
  destruct (x_train (data k)) as [ | x0 x ] eqn:Hx; [ contradiction | ].
  match goal with |- context [fit_epochs ?n ?b ?s ?es (?w0, ?o0, ?g0) ?h0 ?out0] =>
    destruct (fit_epochs_ok n b s es w0 o0 g0 h0 out0)
      as (h' & w' & o' & g' & out' & Hfit & He & Hl & Ha & _ & Hlr)
  end.
  rewrite Hfit. cbn [h_epoch h_loss h_accuracy app length Nat.add] in He, Hl, Ha.
  rewrite length_range in Hl, Ha.
  do 3 eexists. split; [ reflexivity | ].
  cbn. repeat split; assumption.
Qed.


(** X14: the concise training cell followed by the plotting cell.  Under the
    same assumptions the two cells run to completion; afterwards [history]
    and [cnn_model] are bound, the history has the three epochs 0, 1, 2, and
    exactly two figures have been drawn, "loss" and "accuracy", each with
    three points over those epochs. *)
Theorem concise_cell_then_plots (k : Kernel) :
  x_train (data k) <> [] ->
  length (x_train (data k)) = length (y_train (data k)) ->
  ensures (concise_training_cell ;; plot_cell) k
    (fun _ k' =>
       exists h m,
         history k' = Some h /\ cnn_model k' = Some m /\
         h_epoch h = [0; 1; 2]%Z /\
         length (h_loss h) = 3 /\ length (h_accuracy h) = 3 /\
         figures (k_proc k') =
           figures (k_proc k) ++
           [ {| title := "loss"; xs := h_epoch h; ys := h_loss h |};
             {| title := "accuracy"; xs := h_epoch h; ys := h_accuracy h |} ] /\
         data k' = data k).
Proof.
  intros Hne Hlen.
  apply ensures_bind. unfold concise_training_cell.
  apply ensures_bind.
  eapply ensures_mono;
    [ apply (@train_network_concise_result 512 3 (1 # 100)%Q k); [ lia | | ]; assumption | ].
  intros v k1 (h & m & c & -> & He & Hl & Ha & _ & _ & _ & Hd & _ & _ & Hfig).
  cbn beta iota.
  apply ensures_bind, ensures_modify. apply ensures_modify.
  unfold plot_cell, global.
  apply ensures_bind, ensures_bind, ensures_get.
  cbn [history set_cnn_model set_history]. apply ensures_ret.
  change (range 3) with [0; 1; 2]%Z in He. change (Z.to_nat 3) with 3 in Hl, Ha.
  unfold plot. rewrite He, Hl, Ha. cbn [length Nat.eqb negb].
  apply ensures_bind, ensures_modify. apply ensures_modify.
  exists h, m. cbn. rewrite He, Hfig, <- app_assoc.
  repeat split; assumption.
Qed.

End ConcisePath.


Lemma concise_cell_then_plots_witness :
  ensures (concise_training_cell (F := toy) ;; plot_cell (F := toy)) toy_kernel
    (fun _ k' => exists h m, history k' = Some h /\ cnn_model k' = Some m /\
                             length (figures (k_proc k')) = 2).
Proof.
  eapply ensures_mono.
  { apply (@concise_cell_then_plots toy toy_well_shaped toy_kernel);
      [ discriminate | reflexivity ]. }
  intros u k' (h & m & Hh & Hm & _ & _ & _ & Hfig & _).
  exists h, m. split; [ exact Hh | ]. split; [ exact Hm | ].
  rewrite Hfig. reflexivity.
Defined.

(** ** The manual training cell *)

(** X15: the last cell.  If the training images and labels differ in number,
    building [dataset] raises ValueError and nothing is trained.  If they
    agree, the cell runs to completion: [dataset] is bound to the images paired
    with their labels in order, three epochs print their two lines each, and
    every other notebook variable (the data, [cnn_model], [history], [scores],
    [predictions], [cm]) is as before, so the model trained there is lost. *)
Theorem manual_training_cell_effect {F : Framework} (k : Kernel) :
  (length (x_train (data k)) <> length (y_train (data k)) ->
   manual_training_cell k = inl ValueError) /\
  (length (x_train (data k)) = length (y_train (data k)) ->
   ensures manual_training_cell k
     (fun _ k' =>
        k_dataset k' = Some (combine (x_train (data k)) (y_train (data k))) /\
        data k' = data k /\
        cnn_model k' = cnn_model k /\ history k' = history k /\
        scores k' = scores k /\ predictions k' = predictions k /\ cm k' = cm k /\
        stdout (k_proc k') =
          stdout (k_proc k) ++ epoch_lines (ticks (k_proc k)) [0; 1; 2]%Z)).
Proof.
  split.
  - intros Hne. unfold manual_training_cell.
    erewrite bind_step by reflexivity.
    apply bind_raises. unfold lift, Dataset.from_tensor_slices.
    destruct (Nat.eqb_spec (length (x_train (data k))) (length (y_train (data k))));
      [ contradiction | reflexivity ].
  - intros Hlen. unfold manual_training_cell.
    apply ensures_bind, ensures_get.
    apply ensures_bind. eapply ensures_lift.
    { unfold Dataset.from_tensor_slices. rewrite Hlen, Nat.eqb_refl. reflexivity. }
    apply ensures_bind, ensures_modify. cbv zeta.
    apply ensures_bind.
    eapply ensures_mono.
    { eapply (train_network_frame 3 (1 # 100)%Q (_batch_size := 512));
        [ apply small_batch_within_limit; lia | reflexivity ]. }
    intros v k' (_ & Hd & Hds & Hm & Hh & _ & Hs & Hp & Hc & Hout & _).
    apply ensures_ret. cbn in *. repeat split; assumption.
Qed.

Lemma manual_training_cell_effect_witness :
  ensures (manual_training_cell (F := toy)) toy_kernel
    (fun _ k' => k_dataset k' = Some [(1, 0%Z); (2, 1%Z); (3, 0%Z)] /\ cnn_model k' = None) /\
  manual_training_cell (F := toy)
    (@Build_Kernel toy (@Build_Data toy [1; 2; 3] [0; 1]%Z [4; 5] [1; 0]%Z)
       None None None None None None None toy_process) = inl ValueError.
Proof.
  split.
  - destruct (@manual_training_cell_effect toy toy_kernel) as [_ Hok].
    eapply ensures_mono; [ apply Hok; reflexivity | ].
    intros u k' (Hds & _ & Hm & _). split; [ exact Hds | exact Hm ].
  - apply (@manual_training_cell_effect toy). cbn. lia.
Defined.
